(** * Branch MCP server: credential resolution, scope parameters, error
      normalisation and log redaction

    A shallow embedding of the shared helper layer of the server
    ([utils/auth.ts], [utils/apiQueryParameters.ts], [utils/errors.ts],
    [utils/api.ts], [utils/logger.ts]), of the catch blocks of the Quick
    Link tools and of ten tool handlers, followed by the properties
    proved about them.

    Conventions.
    - An optional TypeScript field [f?: string] is an [option string]:
      [None] is [undefined], [Some ""] is the empty string.
    - A JavaScript object used as a string-keyed record of strings
      ([Record<string, string>]) is a [gmap string string].
    - Arbitrary JavaScript data ([unknown], [any]) is a [JsValue] tree.
    - Where mutation matters, objects and arrays are cells of a heap and
      values refer to them by location. *)

From stdpp Require Import base option strings list gmap pretty.

(* ================================================================== *)
(** * Part I: the embedding *)
(* ================================================================== *)

(** ** JavaScript operators on optional strings *)

(** [a ?? b]: the left operand unless it is [undefined]. *)
Definition nullish {A : Type} (a b : option A) : option A :=
  match a with
  | Some x => Some x
  | None => b
  end.

Infix "??" := nullish (at level 61, left associativity).

(** The value of an optional string when it is truthy: a string is truthy
    when it is not empty, [undefined] is falsy. *)
Definition truthy (o : option string) : option string :=
  match o with
  | Some s => if decide (s = "") then None else Some s
  | None => None
  end.

(** ** [config.ts]: the server configuration *)

Module BranchMcpConfig.
Record t : Type := mk {
  branch_key : option string;
  branch_url : option string;
  branch_secret : option string;
  api_key : option string;
  app_id : option string;
  organization_id : option string;
  auth_token : option string
}.

(** The configuration [{}]. *)
Definition empty : t := mk None None None None None None None.
End BranchMcpConfig.

(** ** [utils/auth.ts] *)

Module AuthParams.
Record t : Type := mk {
  api_key : option string;
  branch_key : option string;
  branch_secret : option string;
  app_id : option string;
  organization_id : option string;
  auth_token : option string
}.

(** The parameter object [{}]. *)
Definition empty : t := mk None None None None None None.
End AuthParams.

(** The object literal returned by [getResolvedAuth]. *)
Module ResolvedAuth.
Record t : Type := mk {
  api_key : option string;
  branch_key : option string;
  branch_secret : option string;
  app_id : option string;
  organization_id : option string;
  auth_token : option string
}.
End ResolvedAuth.

Definition getResolvedAuth (params : AuthParams.t) (config : BranchMcpConfig.t)
  : ResolvedAuth.t :=
  let resolvedApiKey :=
    AuthParams.api_key params ?? AuthParams.auth_token params
      ?? BranchMcpConfig.api_key config ?? BranchMcpConfig.auth_token config in
  let resolvedAppId := AuthParams.app_id params ?? BranchMcpConfig.app_id config in
  let resolvedOrgId :=
    AuthParams.organization_id params ?? BranchMcpConfig.organization_id config in
  {| ResolvedAuth.api_key := resolvedApiKey;
     ResolvedAuth.branch_key :=
       AuthParams.branch_key params ?? BranchMcpConfig.branch_key config;
     ResolvedAuth.branch_secret :=
       AuthParams.branch_secret params ?? BranchMcpConfig.branch_secret config;
     ResolvedAuth.app_id := resolvedAppId;
     ResolvedAuth.organization_id := resolvedOrgId;
     ResolvedAuth.auth_token := resolvedApiKey |}.

(** The six credential fields, to quantify over them. *)
Inductive CredField : Type :=
  | F_api_key
  | F_branch_key
  | F_branch_secret
  | F_app_id
  | F_organization_id
  | F_auth_token.

Definition paramField (P : AuthParams.t) (F : CredField) : option string :=
  match F with
  | F_api_key => AuthParams.api_key P
  | F_branch_key => AuthParams.branch_key P
  | F_branch_secret => AuthParams.branch_secret P
  | F_app_id => AuthParams.app_id P
  | F_organization_id => AuthParams.organization_id P
  | F_auth_token => AuthParams.auth_token P
  end.

Definition configField (C : BranchMcpConfig.t) (F : CredField) : option string :=
  match F with
  | F_api_key => BranchMcpConfig.api_key C
  | F_branch_key => BranchMcpConfig.branch_key C
  | F_branch_secret => BranchMcpConfig.branch_secret C
  | F_app_id => BranchMcpConfig.app_id C
  | F_organization_id => BranchMcpConfig.organization_id C
  | F_auth_token => BranchMcpConfig.auth_token C
  end.

Definition resolvedField (R : ResolvedAuth.t) (F : CredField) : option string :=
  match F with
  | F_api_key => ResolvedAuth.api_key R
  | F_branch_key => ResolvedAuth.branch_key R
  | F_branch_secret => ResolvedAuth.branch_secret R
  | F_app_id => ResolvedAuth.app_id R
  | F_organization_id => ResolvedAuth.organization_id R
  | F_auth_token => ResolvedAuth.auth_token R
  end.

(** The two names of the access token. *)
Definition isTokenField (F : CredField) : bool :=
  match F with
  | F_api_key | F_auth_token => true
  | _ => false
  end.

(** Specification side: the per-field rule "the caller's value if present,
    else the configuration's value if present, else absent". *)
Definition fieldPrecedence (P : AuthParams.t) (C : BranchMcpConfig.t)
    (F : CredField) : option string :=
  match paramField P F with
  | Some v => Some v
  | None =>
      match configField C F with
      | Some v => Some v
      | None => None
      end
  end.

(** Specification side: the first present value of a list of candidates. *)
Fixpoint firstPresent (candidates : list (option string)) : option string :=
  match candidates with
  | [] => None
  | Some v :: _ => Some v
  | None :: rest => firstPresent rest
  end.

(** The candidates of the access token, in the order of the synonym rule. *)
Definition tokenCandidates (P : AuthParams.t) (C : BranchMcpConfig.t)
  : list (option string) :=
  [AuthParams.api_key P; AuthParams.auth_token P;
   BranchMcpConfig.api_key C; BranchMcpConfig.auth_token C].

(** ** [utils/apiQueryParameters.ts] *)

Module ScopeParams.
(** The parameter type [{ app_id?: string; organization_id?: string }]. *)
Record t : Type := mk {
  app_id : option string;
  organization_id : option string
}.

Definition empty : t := mk None None.
End ScopeParams.

(** An [AuthParams] object is also a value of the structural type
    [ScopeParams.t]: the two fields the scope builder reads. *)
Definition scopeOf (P : AuthParams.t) : ScopeParams.t :=
  ScopeParams.mk (AuthParams.app_id P) (AuthParams.organization_id P).

Definition getApiQueryParams (params : ScopeParams.t) (config : BranchMcpConfig.t)
  : gmap string string :=
  let queryParams : gmap string string := ∅ in
  let queryParams :=
    match truthy (ScopeParams.app_id params) with
    | Some a => <["app_id" := a]> queryParams
    | None =>
        match truthy (BranchMcpConfig.app_id config) with
        | Some a => <["app_id" := a]> queryParams
        | None => queryParams
        end
    end in
  match truthy (queryParams !! "app_id") with
  | Some _ => queryParams
  | None =>
      match truthy (ScopeParams.organization_id params) with
      | Some o => <["organization_id" := o]> queryParams
      | None =>
          match truthy (BranchMcpConfig.organization_id config) with
          | Some o => <["organization_id" := o]> queryParams
          | None => queryParams
          end
      end
  end.

(** An optional string that holds no usable identifier: [undefined] or the
    empty string. *)
Definition blank (o : option string) : Prop := o = None ∨ o = Some "".

(** Specification side: the scope rule read with "present" as "not
    [undefined]" (the reading of the credential resolver). *)
Definition scopeRuleByPresence (P : ScopeParams.t) (C : BranchMcpConfig.t) : Prop :=
  (∀ v, ScopeParams.app_id P ?? BranchMcpConfig.app_id C = Some v →
        getApiQueryParams P C = {[ "app_id" := v ]}) ∧
  (ScopeParams.app_id P ?? BranchMcpConfig.app_id C = None →
   ∀ w, ScopeParams.organization_id P ?? BranchMcpConfig.organization_id C = Some w →
        getApiQueryParams P C = {[ "organization_id" := w ]}) ∧
  (ScopeParams.app_id P ?? BranchMcpConfig.app_id C = None →
   ScopeParams.organization_id P ?? BranchMcpConfig.organization_id C = None →
   getApiQueryParams P C = ∅).

(** ** JavaScript data *)

(** Plain JavaScript data: primitives, arrays, and objects given by their
    own enumerable string-keyed properties in enumeration order; a key
    [__proto__] in the list is an own property of that name, as
    [JSON.parse] creates it. The prototype of an object is not part of
    the tree. Numbers are represented by integers; the functions below
    only copy a number, test it against zero or print it. *)
#[local] Unset Elimination Schemes.
Inductive JsValue : Type :=
  | JUndefined
  | JNull
  | JBool (b : bool)
  | JNumber (n : Z)
  | JString (s : string)
  | JArray (elems : list JsValue)
  | JObject (props : list (string * JsValue)).
#[local] Set Elimination Schemes.

(** The own property [k] of a property list, if there is one. *)
Fixpoint getProp {A : Type} (props : list (string * A)) (k : string) : option A :=
  match props with
  | [] => None
  | (k', v) :: rest => if decide (k' = k) then Some v else getProp rest k
  end.

(** [v?.k] for a data key [k]: [undefined] when [v] is [undefined] or
    [null], and when [v] has no property [k] (primitives and arrays have
    no data keys). *)
Definition optMember (v : JsValue) (k : string) : JsValue :=
  match v with
  | JObject props => default JUndefined (getProp props k)
  | _ => JUndefined
  end.

(** Truthiness, as tested by [if (v)] and [v && ...]. *)
Definition jsTruthy (v : JsValue) : bool :=
  match v with
  | JUndefined | JNull => false
  | JBool b => b
  | JNumber n => bool_decide (n ≠ 0%Z)
  | JString s => bool_decide (s ≠ "")
  | JArray _ | JObject _ => true
  end.

(** ECMAScript [ToString] on plain data, as applied by template literals
    and by the [Error] constructor to its message argument. A number is
    printed with all its digits, which is what JavaScript prints for an
    integer below [10^21] in absolute value; the numbers printed here are
    HTTP status codes. *)
Fixpoint toJsString (v : JsValue) : string :=
  match v with
  | JUndefined => "undefined"
  | JNull => "null"
  | JBool b => if b then "true" else "false"
  | JNumber n => pretty n
  | JString s => s
  | JArray elems =>
      String.concat ","
        (map (λ x, match x with
                   | JUndefined | JNull => ""
                   | _ => toJsString x
                   end) elems)
  | JObject _ => "[object Object]"
  end.

(** ** [utils/errors.ts] *)

(** The part of an axios response the code reads. *)
Module AxiosResponse.
Record t : Type := mk {
  data : JsValue;
  status : Z;
  statusText : string
}.
End AxiosResponse.

(** A value caught by [catch (error)], of static type [unknown]: plain
    data, an instance of [Error], or an error built by axios (an instance
    of [Error] for which [axios.isAxiosError] holds; its [response] is
    absent when no response was received). *)
Inductive Thrown : Type :=
  | ThrownValue (v : JsValue)
  | ThrownError (message : string)
  | ThrownAxiosError (message : string) (response : option AxiosResponse.t).

Module BranchApiError.
Record t : Type := mk {
  message : string;
  status : option Z;
  response : option AxiosResponse.t
}.

(** The [options] argument of the constructor. *)
Record options : Type := mkOptions {
  opt_status : option Z;
  opt_response : option AxiosResponse.t
}.

(** [new BranchApiError(message, options?)]. *)
Definition new (message : string) (opts : option options) : t :=
  {| message := message;
     status := opts ≫= opt_status;
     response := opts ≫= opt_response |}.
End BranchApiError.

(** [error instanceof Error]. *)
Definition instanceofError (error : Thrown) : bool :=
  match error with
  | ThrownValue _ => false
  | ThrownError _ | ThrownAxiosError _ _ => true
  end.

Definition isErrorWithMessage (error : Thrown) : bool :=
  match error with
  | ThrownValue (JObject props) =>
      match getProp props "message" with
      | Some (JString _) => true
      | _ => false
      end
  | ThrownValue _ => false
  | ThrownError _ | ThrownAxiosError _ _ => true
  end.

(** The property read [error.message]. *)
Definition messageProperty (error : Thrown) : JsValue :=
  match error with
  | ThrownValue v => optMember v "message"
  | ThrownError m | ThrownAxiosError m _ => JString m
  end.

(** The two branches that return [error.message] read a string there: an
    instance of [Error] holds one, and [isErrorWithMessage] has checked
    it; [toJsString] returns a string as it is. *)
Definition getErrorMessage (error : Thrown) : string :=
  if instanceofError error then toJsString (messageProperty error)
  else if isErrorWithMessage error then toJsString (messageProperty error)
  else
    match error with
    | ThrownValue (JString s) => s
    | _ => "Unknown error occurred"
    end.

(** Specification side: [e] is a structured object carrying the string
    message [m]. *)
Inductive carriesMessage : Thrown → string → Prop :=
  | carries_object props m :
      getProp props "message" = Some (JString m) →
      carriesMessage (ThrownValue (JObject props)) m
  | carries_error m : carriesMessage (ThrownError m) m
  | carries_axios m r : carriesMessage (ThrownAxiosError m r) m.

(** ** [utils/api.ts] *)

(** [axios.isAxiosError(error)]. The test of axios is on the shape of the
    value (an object whose [isAxiosError] is [true]); the values caught
    here with that shape are the errors axios builds, so plain data is
    taken never to pass the test. *)
Definition isAxiosError (error : Thrown) : bool :=
  match error with
  | ThrownAxiosError _ _ => true
  | _ => false
  end.

(** [error.response] of an axios error; absent on every other value. *)
Definition responseOf (error : Thrown) : option AxiosResponse.t :=
  match error with
  | ThrownAxiosError _ r => r
  | _ => None
  end.

(** [handleApiError] never returns: the result is the error it throws. *)
Definition handleApiError (error : Thrown) : BranchApiError.t :=
  match isAxiosError error, responseOf error with
  | true, Some response =>
      BranchApiError.new
        ("Branch API error: " +:+ toJsString (JNumber (AxiosResponse.status response))
           +:+ " " +:+ AxiosResponse.statusText response)
        (Some (BranchApiError.mkOptions
                 (Some (AxiosResponse.status response)) (Some response)))
  | _, _ =>
      BranchApiError.new ("Branch API error: " +:+ getErrorMessage error) None
  end.

(** ** [apis/quick-links.ts]: the catch blocks *)

(** [error.response?.data?.error?.message]. *)
Definition nestedErrorMessage (error : Thrown) : JsValue :=
  match responseOf error with
  | Some response =>
      optMember (optMember (AxiosResponse.data response) "error") "message"
  | None => JUndefined
  end.

(** What a catch block does: the line it logs and the error it throws. *)
Record CatchOutcome : Type := mkCatchOutcome {
  logged : string;
  thrown : BranchApiError.t
}.

(** The catch block shared by [branch_create_quick_link],
    [branch_update_quick_link] and [branch_bulk_create_quick_links];
    [tool] is the tool name in the log line. [branch_create_qr_code] ends
    with the same block, but its request asks for
    [responseType: 'arraybuffer']: the [data] of its response is a byte
    buffer, which is no data tree and has no property [error], so of this
    definition only what does not read [data] (the status, the response
    passed on) carries over to that tool. *)
Definition toolCatch (tool : string) (error : Thrown) : CatchOutcome :=
  let message := JString (getErrorMessage error) in
  let message :=
    if isAxiosError error && jsTruthy (nestedErrorMessage error)
    then nestedErrorMessage error
    else message in
  let logged := "Error in " +:+ tool +:+ ": " +:+ toJsString message in
  if isAxiosError error then
    mkCatchOutcome logged
      (BranchApiError.new (toJsString message)
         (Some (BranchApiError.mkOptions
                  (Some (default 0%Z (AxiosResponse.status <$> responseOf error)))
                  (responseOf error))))
  else
    mkCatchOutcome logged
      (BranchApiError.new (toJsString message)
         (Some (BranchApiError.mkOptions (Some 0%Z) None))).

(** The status line [handleApiError] reports for a response. *)
Definition statusLine (response : AxiosResponse.t) : string :=
  "Branch API error: " +:+ pretty (AxiosResponse.status response)
    +:+ " " +:+ AxiosResponse.statusText response.

(** Specification side: "the nested [error.message] of the response body
    becomes the message", asked of a normaliser [normalise]. *)
Definition prefersNestedMessage (normalise : Thrown → BranchApiError.t) : Prop :=
  ∀ (m0 : string) (response : AxiosResponse.t) (m : string),
    optMember (optMember (AxiosResponse.data response) "error") "message" = JString m →
    BranchApiError.message (normalise (ThrownAxiosError m0 (Some response))) = m.

(** Specification side: "status is absent exactly when no response was
    received", asked of a normaliser [normalise]. *)
Definition statusDiscriminates (normalise : Thrown → BranchApiError.t) : Prop :=
  ∀ error : Thrown,
    BranchApiError.status (normalise error) = None ↔ responseOf error = None.

(** ** [utils/logger.ts]: the log redactor on data trees *)

Definition SENSITIVE_KEYS : list string :=
  ["branch_secret"; "branch_key"; "api_key"; "auth_token"; "app_id";
   "organization_id"].

Definition REDACTED_PLACEHOLDER : string := "[REDACTED]".

(** [SENSITIVE_KEYS.includes(key)]. *)
Definition isSensitive (key : string) : bool :=
  bool_decide (key ∈ SENSITIVE_KEYS).

(** [key === '__proto__']. An object created by [{}] inherits the
    accessor [__proto__] of [Object.prototype], so the assignment
    [newObj['__proto__'] = v] runs the setter of that accessor: it sets the
    prototype of [newObj] when [v] is an object or [null], does nothing
    otherwise, and in no case adds a property to [newObj]. *)
Definition isProtoKey (key : string) : bool := bool_decide (key = "__proto__").

(** The own properties of a fresh [newObj = {}] after the loop
    [for (const key in obj) newObj[key] = value(key, obj[key])] over the own
    properties [props] of [obj]: one for each key of [obj], in the same
    order, except for a key [__proto__], whose assignment adds none. *)
Definition assignedProps {A B : Type} (value : string → A → B)
    (props : list (string * A)) : list (string * B) :=
  omap (λ kv : string * A,
          if isProtoKey kv.1 then None else Some (kv.1, value kv.1 kv.2))
    props.

(** [sanitizeLogObject] as a function on data trees. The [for...in] loop
    visits the own keys of [obj] in enumeration order, each once, and
    assigns [newObj[key]] the placeholder or the redacted value. The
    result is given by its own properties: the prototype that an
    assignment to [__proto__] installs on the copy is not among them. *)
Fixpoint sanitizeLogObject (obj : JsValue) : JsValue :=
  match obj with
  | JArray elems => JArray (sanitizeLogObject <$> elems)
  | JObject props =>
      JObject
        (assignedProps
           (λ key value, if isSensitive key
                         then JString REDACTED_PLACEHOLDER
                         else sanitizeLogObject value)
           props)
  | _ => obj
  end.

(** Specification side: positions inside a data tree, by own properties
    and array indices. *)
Inductive PathStep : Type :=
  | AtKey (key : string)
  | AtIndex (i : nat).

Fixpoint valueAt (v : JsValue) (path : list PathStep) : option JsValue :=
  match path with
  | [] => Some v
  | AtKey key :: rest =>
      match v with
      | JObject props =>
          match getProp props key with
          | Some w => valueAt w rest
          | None => None
          end
      | _ => None
      end
  | AtIndex i :: rest =>
      match v with
      | JArray elems =>
          match elems !! i with
          | Some w => valueAt w rest
          | None => None
          end
      | _ => None
      end
  end.

(** A path that passes through no sensitive key and through no key
    [__proto__]. *)
Fixpoint cleanPath (path : list PathStep) : bool :=
  match path with
  | [] => true
  | AtKey key :: rest =>
      negb (isSensitive key) && negb (isProtoKey key) && cleanPath rest
  | AtIndex _ :: rest => cleanPath rest
  end.


(** The nesting depth of a data tree. *)
Fixpoint depth (t : JsValue) : nat :=
  match t with
  | JArray elems => S (foldr (λ x d, depth x `max` d) 0 elems)
  | JObject props => S (foldr (λ kv d, depth kv.2 `max` d) 0 props)
  | _ => 0
  end.

(** ** [utils/logger.ts]: the log redactor on the object heap *)

(** To speak about mutation, objects live in a heap: a value is a
    primitive or a reference to a heap cell, a cell is an array or an
    object, and several references may name one cell. Allocation appends
    a cell; a location is the index of its cell. *)
Abbreviation loc := nat.

Inductive HeapValue : Type :=
  | HUndefined
  | HNull
  | HBool (b : bool)
  | HNumber (n : Z)
  | HString (s : string)
  | HRef (l : loc).

Inductive HeapCell : Type :=
  | HArray (elems : list HeapValue)
  | HObject (props : list (string * HeapValue)).

Abbreviation Heap := (list HeapCell).

(** A new cell, at the first unused location. *)
Definition alloc (σ : Heap) (cell : HeapCell) : Heap * loc :=
  (σ ++ [cell], length σ).

(** The property list after [o[key] = v]: an existing property is
    overwritten in place, a new one is added last. *)
Fixpoint setProp {A : Type} (props : list (string * A)) (key : string) (v : A)
  : list (string * A) :=
  match props with
  | [] => [(key, v)]
  | (k, w) :: rest =>
      if decide (k = key) then (k, v) :: rest else (k, w) :: setProp rest key v
  end.

(** The heap after [o[key] = v] for the object at [l], an object created
    by [{}]. The assignment to [__proto__] runs the inherited setter: it
    changes the prototype of the object, which a cell does not record,
    and none of its own properties. *)
Definition assignProp (σ : Heap) (l : loc) (key : string) (v : HeapValue) : Heap :=
  if isProtoKey key then σ
  else
    match σ !! l with
    | Some (HObject props) => <[l := HObject (setProp props key v)]> σ
    | _ => σ
    end.

(** The heap after the array at [l] receives [v] at index [i], an index
    the array has: [map] creates its result with the length of its
    argument. *)
Definition assignIndex (σ : Heap) (l : loc) (i : nat) (v : HeapValue) : Heap :=
  match σ !! l with
  | Some (HArray elems) => <[l := HArray (<[i := v]> elems)]> σ
  | _ => σ
  end.

(** A loop whose body updates the heap and may fail to finish. *)
Fixpoint forEachM {A : Type} (body : Heap → A → option Heap) (σ : Heap)
    (items : list A) : option Heap :=
  match items with
  | [] => Some σ
  | x :: rest =>
      match body σ x with
      | Some σ' => forEachM body σ' rest
      | None => None
      end
  end.

(** One round of [obj.map(callback)] for the array at [l]: read the
    element at index [i], call [callback], store what it returns at index
    [i] of the array at [result]. An index without an element is skipped. *)
Definition mapStep (callback : Heap → HeapValue → option (Heap * HeapValue))
    (l result : loc) (σ : Heap) (i : nat) : option Heap :=
  match σ !! l with
  | Some (HArray current) =>
      match current !! i with
      | Some element =>
          '(σ, mapped) ← callback σ element;
          Some (assignIndex σ result i mapped)
      | None => Some σ
      end
  | _ => Some σ
  end.

(** One round of the [for...in] loop over the object at [l]: if [key] is
    still an own property, store into [newObj] the placeholder for a
    sensitive key, and otherwise what [recur] returns for the property
    value. *)
Definition forInStep (recur : Heap → HeapValue → option (Heap * HeapValue))
    (l newObj : loc) (σ : Heap) (key : string) : option Heap :=
  match σ !! l with
  | Some (HObject current) =>
      match getProp current key with
      | Some value =>
          if isSensitive key then
            Some (assignProp σ newObj key (HString REDACTED_PLACEHOLDER))
          else
            '(σ, sanitized) ← recur σ value;
            Some (assignProp σ newObj key sanitized)
      | None => Some σ
      end
  | _ => Some σ
  end.

(** [sanitizeLogObject] on the heap. [fuel] bounds the depth of the
    recursion, which has no bound of its own on a cyclic structure;
    [None] is a run that did not finish within [fuel] (or met a reference
    to no cell). The result is the final heap and the returned value.
    [obj.map] creates the result array with the length of [obj] before it
    visits the indices in order; [newObj] is created before the loop over
    the own keys of [obj]. *)
Fixpoint sanitizeLogObjectH (fuel : nat) (σ : Heap) (obj : HeapValue)
  : option (Heap * HeapValue) :=
  match fuel with
  | O => None
  | S fuel =>
      match obj with
      | HRef l =>
          match σ !! l with
          | Some (HArray elems) =>
              let '(σ, result) :=
                alloc σ (HArray (replicate (length elems) HUndefined)) in
              σ ← forEachM (mapStep (sanitizeLogObjectH fuel) l result)
                    σ (seq 0 (length elems));
              Some (σ, HRef result)
          | Some (HObject props) =>
              let '(σ, newObj) := alloc σ (HObject []) in
              σ ← forEachM (forInStep (sanitizeLogObjectH fuel) l newObj)
                    σ props.*1;
              Some (σ, HRef newObj)
          | None => None
          end
      | _ => Some (σ, obj)
      end
  end.

(** Every cell of [σ] is still there, unchanged, in [σ']. *)
Definition preserved (σ σ' : Heap) : Prop :=
  ∀ (l : loc) (cell : HeapCell), σ !! l = Some cell → σ' !! l = Some cell.

(** Pointwise relation of two lists of the same length. *)
Fixpoint all2 {A B : Type} (R : A → B → Prop) (xs : list A) (ys : list B) : Prop :=
  match xs, ys with
  | [], [] => True
  | x :: xs, y :: ys => R x y ∧ all2 R xs ys
  | _, _ => False
  end.

(** The heap value [v] is the data tree [t] in the heap [σ], reading only
    cells whose location satisfies [D]. Objects have distinct keys. A
    value that is some tree reaches finitely many cells and no cycle. *)
Fixpoint represents (D : loc → Prop) (σ : Heap) (t : JsValue) (v : HeapValue)
  : Prop :=
  match t, v with
  | JUndefined, HUndefined => True
  | JNull, HNull => True
  | JBool b, HBool b' => b = b'
  | JNumber n, HNumber n' => n = n'
  | JString s, HString s' => s = s'
  | JArray ts, HRef l =>
      D l ∧ ∃ elems, σ !! l = Some (HArray elems) ∧
                     all2 (represents D σ) ts elems
  | JObject tps, HRef l =>
      D l ∧ ∃ props, σ !! l = Some (HObject props) ∧
                     NoDup props.*1 ∧
                     all2 (λ tp p, tp.1 = p.1 ∧ represents D σ tp.2 p.2) tps props
  | _, _ => False
  end.

(** No restriction on the cells read. *)
Definition anywhere : loc → Prop := λ _, True.

(** The cells allocated after the heap had [n] cells. *)
Definition allocatedFrom (n : nat) : loc → Prop := λ l, n ≤ l.

(** The run of the redactor on [v] in [σ] finishes within [fuel], leaves
    every cell of [σ] as it was, and returns the redacted form of the
    tree [t] built from cells that did not exist in [σ]. *)
Definition sanitizesTo (fuel : nat) (σ : Heap) (v : HeapValue) (t : JsValue) : Prop :=
  ∃ σ' r,
    sanitizeLogObjectH fuel σ v = Some (σ', r) ∧
    preserved σ σ' ∧
    represents (allocatedFrom (length σ)) σ' (sanitizeLogObject t) r.

(** ** [utils/api.ts]: the base URL *)

Definition MCP_USER_AGENT : string := "Branch-MCP-Server/1.0.0".

(** [a || b] for an optional string [a]: [a] when it is truthy, else [b]. *)
Definition orDefault (a : option string) (b : string) : string :=
  match truthy a with
  | Some s => s
  | None => b
  end.

Definition getBranchBaseUrl (config : BranchMcpConfig.t) : string :=
  let baseUrl := orDefault (BranchMcpConfig.branch_url config) "api2.branch.io" in
  "https://" +:+ baseUrl.

(** The function of the same name that [registerAppTools] defines for
    its own use ([apis/app.ts]). *)
Definition registerAppTools_getBranchBaseUrl (config : BranchMcpConfig.t) : string :=
  let baseUrl := orDefault (BranchMcpConfig.branch_url config) "api2.branch.io" in
  "https://" +:+ baseUrl.

(** ** [config.ts] and [index.ts]: the configuration at startup *)

Definition DEFAULT_CONFIG : BranchMcpConfig.t :=
  BranchMcpConfig.mk None (Some "api2.branch.io") None None None None None.

(** The [config] object of [index.ts], built from [process.env]: a map
    from variable names to strings. It has no [api_key] property. *)
Definition startupConfig (env : gmap string string) : BranchMcpConfig.t :=
  {| BranchMcpConfig.branch_key := Some (default "" (env !! "BRANCH_KEY"));
     BranchMcpConfig.branch_url :=
       match truthy (env !! "BRANCH_URL") with
       | Some url => Some url
       | None => BranchMcpConfig.branch_url DEFAULT_CONFIG
       end;
     BranchMcpConfig.branch_secret := Some (default "" (env !! "BRANCH_SECRET"));
     BranchMcpConfig.api_key := None;
     BranchMcpConfig.app_id := Some (default "" (env !! "BRANCH_APP_ID"));
     BranchMcpConfig.organization_id :=
       Some (default "" (env !! "BRANCH_ORGANIZATION_ID"));
     BranchMcpConfig.auth_token := Some (default "" (env !! "USER_AUTH_TOKEN")) |}.

(** ** [schemas/auth.ts]: one of [app_id] and [organization_id] *)

(** The predicate given to [refine]:
    [!!data.app_id || !!data.organization_id]. *)
Definition appIdOrOrgIdCheck (data : ScopeParams.t) : bool :=
  bool_decide (is_Some (truthy (ScopeParams.app_id data)))
  || bool_decide (is_Some (truthy (ScopeParams.organization_id data))).

(** [appIdOrOrgIdValidator.parse(data)] on an object whose two fields
    have their declared types: the two fields, or the validation error
    with the message of the refinement. *)
Definition appIdOrOrgIdValidator_parse (data : ScopeParams.t) : ScopeParams.t + string :=
  if appIdOrOrgIdCheck data then inl data
  else inr "Either an app_id or an organization_id must be provided.".

(** ** Credential field names *)

(** The property name of each credential field in [AuthParams],
    [BranchMcpConfig] and the resolved credentials. *)
Definition fieldName (F : CredField) : string :=
  match F with
  | F_api_key => "api_key"
  | F_branch_key => "branch_key"
  | F_branch_secret => "branch_secret"
  | F_app_id => "app_id"
  | F_organization_id => "organization_id"
  | F_auth_token => "auth_token"
  end.


(** ** Tool handlers: parameters, requests and outcomes *)

(** An object seen as a map from its own enumerable keys to their values:
    tool parameters, request bodies, query parameters. *)
Abbreviation JsObject := (gmap string JsValue).

(** [o.key]. *)
Definition member (o : JsObject) (key : string) : JsValue :=
  default JUndefined (o !! key).

(** The own enumerable properties of a value, as copied by an object
    spread [{...v}]: the properties of an object, the elements of an
    array under their indices, the characters of a string under their
    indices, nothing for the other primitives. *)
Definition ownProps (v : JsValue) : JsObject :=
  match v with
  | JObject props => list_to_map props
  | JArray elems => list_to_map (imap (λ i x, (pretty i, x)) elems)
  | JString s =>
      list_to_map
        (imap (λ i c, (pretty i, JString (String c EmptyString)))
           (String.list_ascii_of_string s))
  | _ => ∅
  end.

(** Tool parameters reach a handler after validation against the input
    schema of the tool: a field declared as a string holds a string when
    it is present. [stringField] reads an optional string field,
    [requiredString] a required one. *)
Definition stringField (params : JsObject) (key : string) : option string :=
  match params !! key with
  | Some (JString s) => Some s
  | _ => None
  end.

Definition requiredString (params : JsObject) (key : string) : string :=
  default "" (stringField params key).

(** The credential fields of the parameters, as [getResolvedAuth] reads
    them. *)
Definition authParamsOf (params : JsObject) : AuthParams.t :=
  {| AuthParams.api_key := stringField params "api_key";
     AuthParams.branch_key := stringField params "branch_key";
     AuthParams.branch_secret := stringField params "branch_secret";
     AuthParams.app_id := stringField params "app_id";
     AuthParams.organization_id := stringField params "organization_id";
     AuthParams.auth_token := stringField params "auth_token" |}.

Inductive HttpMethod : Type := GET | POST | PUT | DELETE.

Inductive RequestBody : Type :=
  | NoBody
  | ObjectBody (body : JsObject)
  | ArrayBody (items : list JsObject).

(** A request handed to axios: method, URL, body, the [params] option
    (the query string) and the [headers] option. *)
Module Request.
Record t : Type := mk {
  method : HttpMethod;
  url : string;
  body : RequestBody;
  params : JsObject;
  headers : gmap string string
}.
End Request.

(** What awaiting a request gives: the [data] of the response, or the
    value the call throws. *)
Inductive HttpResult : Type :=
  | HttpOk (data : JsValue)
  | HttpThrows (error : Thrown).

(** How a handler ends: it returns a value, or throws a plain [Error],
    the validation error of a schema (with the message of its issue), or
    a [BranchApiError]. *)
Inductive ToolOutcome : Type :=
  | Returns (value : JsValue)
  | ThrowsError (message : string)
  | ThrowsZodError (issue : string)
  | ThrowsApiError (error : BranchApiError.t).

(** A run of a handler: the requests it made, in order, and how it
    ended. Log calls are left out. *)
Record ToolRun : Type := mkToolRun {
  requests : list Request.t;
  outcome : ToolOutcome
}.

Definition finished (o : ToolOutcome) : ToolRun := mkToolRun [] o.

(** [await axios...(request)] inside [try]: the run goes on with the
    response data, or with the value thrown, in the [catch] block. *)
Definition await (http : Request.t → HttpResult) (request : Request.t)
    (onData : JsValue → ToolRun) (onThrow : Thrown → ToolRun) : ToolRun :=
  let rest :=
    match http request with
    | HttpOk data => onData data
    | HttpThrows error => onThrow error
    end in
  mkToolRun (request :: requests rest) (outcome rest).

(** [{ type: 'text', text }]. *)
Definition textContent (text : string) : JsValue :=
  JObject [("type", JString "text"); ("text", JString text)].

(** [v === 'MARKETING']. *)
Definition isMarketing (v : JsValue) : bool :=
  match v with
  | JString s => bool_decide (s = "MARKETING")
  | _ => false
  end.

(** [s.includes(part)]. *)
Fixpoint includes (s part : string) : bool :=
  String.prefix part s
  || match s with
     | EmptyString => false
     | String _ rest => includes rest part
     end.

(** ** [apis/quick-links.ts]: the three handlers

    [stringify indent v] stands for [JSON.stringify(v, null, indent)],
    and [stringify 0 v] for [JSON.stringify(v)]. *)

Definition branch_create_quick_link (config : BranchMcpConfig.t)
    (http : Request.t → HttpResult) (params : JsObject) : ToolRun :=
  let resolved := getResolvedAuth (authParamsOf params) config in
  match truthy (ResolvedAuth.branch_key resolved),
        truthy (ResolvedAuth.branch_secret resolved) with
  | Some branch_key, Some branch_secret =>
      if isMarketing (member params "type")
         && negb (jsTruthy (optMember (member params "data") "$marketing_title"))
      then
        finished (ThrowsError "A $marketing_title is required in the data object for links to be visible on the dashboard (when type is MARKETING).")
      else
        let type := member params "type" in
        let linkParams := delete "type" params in
        let requestBody :=
          <["type" := JNumber (if isMarketing type then 2 else 0)]>
            (<["branch_secret" := JString branch_secret]>
               (<["branch_key" := JString branch_key]> linkParams)) in
        let url := getBranchBaseUrl config +:+ "/v1/url" in
        await http
          (Request.mk POST url (ObjectBody requestBody) ∅
             {[ "Content-Type" := "application/json";
                "User-Agent" := MCP_USER_AGENT ]})
          (λ data, finished (Returns data))
          (λ error,
             finished (ThrowsApiError
                         (thrown (toolCatch "branch_create_quick_link" error))))
  | _, _ =>
      finished (ThrowsError "Branch Key and Secret are not configured. Please provide them in the tool parameters or server configuration.")
  end.

Definition immutableKeys : list string :=
  ["alias"; "identity"; "type"; "app_id"; "randomized_bundle_token";
   "domain"; "state"; "creation_source"; "app_short_identifier"].

(** [for (const key of keys) delete payload[key]]. *)
Definition deleteKeys (keys : list string) (payload : JsObject) : JsObject :=
  foldl (λ payload key, delete key payload) payload keys.

Definition branch_update_quick_link (config : BranchMcpConfig.t)
    (http : Request.t → HttpResult) (stringify : nat → JsValue → string)
    (params : JsObject) : ToolRun :=
  let url := requiredString params "url" in
  let link_data := member params "link_data" in
  let resolved := getResolvedAuth (authParamsOf params) config in
  match truthy (ResolvedAuth.branch_key resolved) with
  | None =>
      finished (ThrowsError "Branch Key is not configured. Please provide it in the tool parameters or server configuration.")
  | Some branch_key =>
      match truthy (ResolvedAuth.branch_secret resolved) with
      | None =>
          finished (ThrowsError "Branch Secret is not configured. Please provide it in the tool parameters or server configuration.")
      | Some branch_secret =>
          if includes url "bnc.lt/c/" || includes url "bnc.lt/d/" then
            finished (Returns (JObject
              [("content", JArray [textContent "Update failed: Links with the structure bnc.lt/c/ or bnc.lt/d/ cannot be updated."]);
               ("isError", JBool true)]))
          else
            let onThrow error :=
              finished (ThrowsApiError
                          (thrown (toolCatch "branch_update_quick_link" error))) in
            let getUrl := getBranchBaseUrl config +:+ "/v1/url" in
            await http
              (Request.mk GET getUrl NoBody
                 {[ "url" := JString url; "branch_key" := JString branch_key ]}
                 {[ "Accept" := "application/json";
                    "User-Agent" := MCP_USER_AGENT ]})
              (λ existingLinkData,
                 let updatedLinkData :=
                   <["url" := JString url]>
                     (<["branch_secret" := JString branch_secret]>
                        (<["branch_key" := JString branch_key]>
                           (ownProps link_data ∪ ownProps existingLinkData))) in
                 let payload := deleteKeys immutableKeys updatedLinkData in
                 let endpointUrl := getBranchBaseUrl config +:+ "/v1/url" in
                 await http
                   (Request.mk PUT endpointUrl (ObjectBody payload)
                      {[ "url" := JString url ]}
                      {[ "Content-Type" := "application/json";
                         "User-Agent" := MCP_USER_AGENT ]})
                   (λ data,
                      finished (Returns (JObject
                        [("structuredContent", data);
                         ("content", JArray [textContent (stringify 2 data)])])))
                   onThrow)
              onThrow
      end
  end.

(** The first link of type [MARKETING] without a truthy
    [data.$marketing_title], if there is one. *)
Fixpoint firstUntitledMarketingLink (links : list JsValue) : option JsValue :=
  match links with
  | [] => None
  | link :: rest =>
      if isMarketing (optMember link "type")
         && negb (jsTruthy (optMember (optMember link "data") "$marketing_title"))
      then Some link
      else firstUntitledMarketingLink rest
  end.

(** The callback of [links.map]: the link without its [type], and with
    [type: 2] when the type was [MARKETING]. *)
Definition transformLink (link : JsValue) : JsObject :=
  let type := optMember link "type" in
  let rest := delete "type" (ownProps link) in
  let newLink := rest in
  if isMarketing type then <["type" := JNumber 2]> newLink else newLink.

(** The elements of a required array field. *)
Definition requiredArray (params : JsObject) (key : string) : list JsValue :=
  match params !! key with
  | Some (JArray elems) => elems
  | _ => []
  end.

Definition branch_bulk_create_quick_links (config : BranchMcpConfig.t)
    (http : Request.t → HttpResult) (stringify : nat → JsValue → string)
    (params : JsObject) : ToolRun :=
  let links := requiredArray params "links" in
  let resolved := getResolvedAuth (authParamsOf params) config in
  match truthy (ResolvedAuth.branch_key resolved) with
  | None =>
      finished (ThrowsError "Branch Key is not configured. Please provide it in the tool parameters or server configuration.")
  | Some branch_key =>
      match firstUntitledMarketingLink links with
      | Some link =>
          finished (Returns (JObject
            [("content", JArray [textContent
               ("Validation Error: A $marketing_title is required for links to be visible on the dashboard. Problematic link data: "
                  +:+ stringify 0 link)]);
             ("isError", JBool true)]))
      | None =>
          let transformedLinks := transformLink <$> links in
          let url := getBranchBaseUrl config +:+ "/v1/url/bulk/" +:+ branch_key in
          await http
            (Request.mk POST url (ArrayBody transformedLinks) ∅
               {[ "Content-Type" := "application/json";
                  "User-Agent" := MCP_USER_AGENT ]})
            (λ data,
               finished (Returns (JObject
                 [("structuredContent", data);
                  ("content", JArray [textContent (stringify 2 data)])])))
            (λ error,
               finished (ThrowsApiError
                           (thrown (toolCatch "branch_bulk_create_quick_links" error))))
      end
  end.

(** ** [apis/deep-linking.ts]: the five handlers *)

(** In [branch_create_deep_link] the check of the key stands inside
    [try]: the [Error] it throws is caught and handed to
    [handleApiError]. *)
Definition branch_create_deep_link (config : BranchMcpConfig.t)
    (http : Request.t → HttpResult) (stringify : nat → JsValue → string)
    (params : JsObject) : ToolRun :=
  let onThrow error := finished (ThrowsApiError (handleApiError error)) in
  let branch_key :=
    stringField params "branch_key" ?? BranchMcpConfig.branch_key config in
  match truthy branch_key with
  | None =>
      onThrow (ThrownError "Branch Key is not configured. Please provide it in the tool parameters or server configuration.")
  | Some branch_key =>
      let url := getBranchBaseUrl config +:+ "/v1/url" in
      await http
        (Request.mk POST url
           (ObjectBody (<["branch_key" := JString branch_key]> params)) ∅
           {[ "Content-Type" := "application/json";
              "User-Agent" := MCP_USER_AGENT ]})
        (λ data,
           finished (Returns (JObject
             [("structuredContent", data);
              ("content", JArray [textContent (stringify 2 data)])])))
        onThrow
  end.

Definition branch_bulk_create_deep_links (config : BranchMcpConfig.t)
    (http : Request.t → HttpResult) (stringify : nat → JsValue → string)
    (params : JsObject) : ToolRun :=
  let links := requiredArray params "links" in
  let branch_key :=
    stringField params "branch_key" ?? BranchMcpConfig.branch_key config in
  match truthy branch_key with
  | None =>
      finished (ThrowsError "Branch Key is not configured. Please provide it in the tool parameters or server configuration.")
  | Some branch_key =>
      let url := getBranchBaseUrl config +:+ "/v1/url/bulk/" +:+ branch_key in
      await http
        (Request.mk POST url (ArrayBody (ownProps <$> links)) ∅
           {[ "Content-Type" := "application/json";
              "User-Agent" := MCP_USER_AGENT ]})
        (λ data,
           finished (Returns (JObject
             [("structuredContent", JObject [("links", data)]);
              ("content", JArray [textContent (stringify 2 data)])])))
        (λ error, finished (ThrowsApiError (handleApiError error)))
  end.

(** As in [branch_create_deep_link], the check of the key stands inside
    [try]. *)
Definition branch_read_deep_link (config : BranchMcpConfig.t)
    (http : Request.t → HttpResult) (stringify : nat → JsValue → string)
    (params : JsObject) : ToolRun :=
  let onThrow error := finished (ThrowsApiError (handleApiError error)) in
  let resolved := getResolvedAuth (authParamsOf params) config in
  match truthy (ResolvedAuth.branch_key resolved) with
  | None =>
      onThrow (ThrownError "Branch Key is not configured. Please provide it in the tool parameters or server configuration.")
  | Some branch_key =>
      let readUrl := getBranchBaseUrl config +:+ "/v1/url" in
      await http
        (Request.mk GET readUrl NoBody
           (<["branch_key" := JString branch_key]> params)
           {[ "Accept" := "application/json";
              "User-Agent" := MCP_USER_AGENT ]})
        (λ data,
           finished (Returns (JObject
             [("content", JArray [textContent (stringify 2 data)])])))
        onThrow
  end.

Definition branch_update_deep_link (config : BranchMcpConfig.t)
    (http : Request.t → HttpResult) (params : JsObject) : ToolRun :=
  let resolved := getResolvedAuth (authParamsOf params) config in
  match truthy (ResolvedAuth.branch_key resolved) with
  | None =>
      finished (ThrowsError "Branch Key is not configured. Please provide it in the tool parameters or server configuration.")
  | Some branch_key =>
      match truthy (ResolvedAuth.branch_secret resolved) with
      | None =>
          finished (ThrowsError "Branch Secret is not configured and is required for this operation. Please provide it in the tool parameters or server configuration.")
      | Some branch_secret =>
          let url := member params "url" in
          let rest := delete "url" params in
          let endpointUrl := getBranchBaseUrl config +:+ "/v1/url" in
          let requestBody :=
            <["branch_secret" := JString branch_secret]>
              (<["branch_key" := JString branch_key]> rest) in
          await http
            (Request.mk PUT endpointUrl (ObjectBody requestBody)
               {[ "url" := url ]}
               {[ "Content-Type" := "application/json";
                  "User-Agent" := MCP_USER_AGENT ]})
            (λ data,
               finished (Returns (JObject
                 [("structuredContent", data); ("content", JArray [])])))
            (λ error, finished (ThrowsApiError (handleApiError error)))
      end
  end.

Definition branch_delete_deep_link (config : BranchMcpConfig.t)
    (http : Request.t → HttpResult) (stringify : nat → JsValue → string)
    (params : JsObject) : ToolRun :=
  let resolved := getResolvedAuth (authParamsOf params) config in
  match truthy (ResolvedAuth.app_id resolved) with
  | None =>
      finished (ThrowsError "Branch App ID is not configured. Please provide it in the tool parameters or server configuration.")
  | Some app_id =>
      match truthy (ResolvedAuth.auth_token resolved) with
      | None =>
          finished (ThrowsError "Branch Auth Token is not configured. Please provide it in the tool parameters or server configuration.")
      | Some auth_token =>
          let url := getBranchBaseUrl config +:+ "/v1/url" in
          await http
            (Request.mk DELETE url NoBody
               {[ "url" := member params "url"; "app_id" := JString app_id ]}
               {[ "Access-Token" := auth_token;
                  "User-Agent" := MCP_USER_AGENT ]})
            (λ data,
               finished (Returns (JObject
                 [("content", JArray [textContent (stringify 2 data)])])))
            (λ error, finished (ThrowsApiError (handleApiError error)))
      end
  end.

(** ** [apis/query.ts] *)

(** [if (v) queryParams[key] = v]. *)
Definition setIfTruthy (key : string) (v : JsValue) (queryParams : JsObject)
  : JsObject :=
  if jsTruthy v then <[key := v]> queryParams else queryParams.

Definition branch_query (config : BranchMcpConfig.t)
    (http : Request.t → HttpResult) (params : JsObject) : ToolRun :=
  let resolved := getResolvedAuth (authParamsOf params) config in
  match truthy (ResolvedAuth.branch_key resolved),
        truthy (ResolvedAuth.branch_secret resolved) with
  | Some branch_key, Some branch_secret =>
      let limit := member params "limit" in
      let after := member params "after" in
      let query_id := member params "query_id" in
      let body := delete "query_id" (delete "after" (delete "limit" params)) in
      let queryParams : JsObject := ∅ in
      let queryParams := setIfTruthy "limit" limit queryParams in
      let queryParams := setIfTruthy "after" after queryParams in
      let queryParams := setIfTruthy "query_id" query_id queryParams in
      let url := getBranchBaseUrl config +:+ "/v1/query/analytics" in
      await http
        (Request.mk POST url
           (ObjectBody (<["branch_secret" := JString branch_secret]>
                          (<["branch_key" := JString branch_key]> body)))
           queryParams
           {[ "Content-Type" := "application/json";
              "Accept" := "application/json";
              "User-Agent" := MCP_USER_AGENT ]})
        (λ data, finished (Returns data))
        (λ error, finished (ThrowsApiError (handleApiError error)))
  | _, _ =>
      finished (ThrowsError "Branch Key and Secret are not configured. Please provide them in the tool parameters or server configuration.")
  end.

(** ** [apis/data-export.ts]: [branch_create_custom_export] *)

(** The catch block of the export and app tools: the status line when
    the server responded, else [label] and the message of the failure. *)
Definition exportCatch (label : string) (error : Thrown) : BranchApiError.t :=
  match isAxiosError error, responseOf error with
  | true, Some response =>
      BranchApiError.new
        ("Branch API error: " +:+ toJsString (JNumber (AxiosResponse.status response))
           +:+ " " +:+ AxiosResponse.statusText response)
        (Some (BranchApiError.mkOptions
                 (Some (AxiosResponse.status response)) (Some response)))
  | _, _ =>
      BranchApiError.new (label +:+ ": " +:+ getErrorMessage error) None
  end.

(** [{ start_date, end_date, report_type, fields, ...optionalParams }]
    for what is left of [rest] after the four fields are taken out. *)
Definition customExportBody (rest : JsObject) : JsObject :=
  let optionalParams :=
    delete "fields" (delete "report_type" (delete "end_date"
      (delete "start_date" rest))) in
  optionalParams
    ∪ {[ "start_date" := member rest "start_date";
         "end_date" := member rest "end_date";
         "report_type" := member rest "report_type";
         "fields" := member rest "fields" ]}.

Definition branch_create_custom_export (config : BranchMcpConfig.t)
    (http : Request.t → HttpResult) (stringify : nat → JsValue → string)
    (params : JsObject) : ToolRun :=
  let api_key := stringField params "api_key" in
  let rest := delete "api_key" params in
  match truthy api_key with
  | None =>
      finished (ThrowsError "Branch API Key must be provided in tool parameters.")
  | Some api_key =>
      match appIdOrOrgIdValidator_parse
              (ScopeParams.mk (stringField rest "app_id")
                 (stringField rest "organization_id")) with
      | inr issue => finished (ThrowsZodError issue)
      | inl scope =>
          let queryParams : gmap string string := ∅ in
          let queryParams :=
            match truthy (ScopeParams.app_id scope) with
            | Some app_id => <["app_id" := app_id]> queryParams
            | None => queryParams
            end in
          let queryParams :=
            match truthy (ScopeParams.organization_id scope) with
            | Some organization_id =>
                <["organization_id" := organization_id]> queryParams
            | None => queryParams
            end in
          let requestBody := customExportBody rest in
          let url := getBranchBaseUrl config +:+ "/v2/logs" in
          await http
            (Request.mk POST url (ObjectBody requestBody) (JString <$> queryParams)
               {[ "Content-Type" := "application/json";
                  "Access-Token" := api_key;
                  "Accept" := "application/json";
                  "User-Agent" := MCP_USER_AGENT ]})
            (λ data,
               finished (Returns (JObject
                 [("structuredContent", data);
                  ("content", JArray [textContent (stringify 2 data)])])))
            (λ error,
               finished (ThrowsApiError
                           (exportCatch "Error creating custom export" error)))
      end
  end.

(** ** The handlers by tool name *)

Inductive Tool : Type :=
  | T_create_quick_link
  | T_update_quick_link
  | T_bulk_create_quick_links
  | T_create_deep_link
  | T_bulk_create_deep_links
  | T_read_deep_link
  | T_update_deep_link
  | T_delete_deep_link
  | T_query
  | T_create_custom_export.

(** The handler registered for each tool. *)
Definition runTool (tool : Tool) (config : BranchMcpConfig.t)
    (http : Request.t → HttpResult) (stringify : nat → JsValue → string)
    (params : JsObject) : ToolRun :=
  match tool with
  | T_create_quick_link => branch_create_quick_link config http params
  | T_update_quick_link => branch_update_quick_link config http stringify params
  | T_bulk_create_quick_links =>
      branch_bulk_create_quick_links config http stringify params
  | T_create_deep_link => branch_create_deep_link config http stringify params
  | T_bulk_create_deep_links =>
      branch_bulk_create_deep_links config http stringify params
  | T_read_deep_link => branch_read_deep_link config http stringify params
  | T_update_deep_link => branch_update_deep_link config http params
  | T_delete_deep_link => branch_delete_deep_link config http stringify params
  | T_query => branch_query config http params
  | T_create_custom_export =>
      branch_create_custom_export config http stringify params
  end.

(** The tools that need a Branch key. *)
Definition needsBranchKey (tool : Tool) : bool :=
  match tool with
  | T_delete_deep_link | T_create_custom_export => false
  | _ => true
  end.

(* ================================================================== *)
(** * Part II: properties *)
(* ================================================================== *)

(** ** Helper lemmas *)

Lemma truthy_Some (s : string) : s ≠ "" → truthy (Some s) = Some s.
Proof. intros Hs. unfold truthy. by rewrite decide_False. Qed.

Lemma truthy_blank (o : option string) : blank o → truthy o = None.
Proof. by intros [-> | ->]. Qed.

Lemma truthy_None_blank (o : option string) : truthy o = None → blank o.
Proof.
  destruct o as [s|]; [|by left]. unfold truthy.
  case_decide; [intros _; right; congruence | done].
Qed.

Lemma truthy_Some_inv (o : option string) (s : string) :
  truthy o = Some s → o = Some s ∧ s ≠ "".
Proof.
  destruct o as [s'|]; [|done]. unfold truthy.
  case_decide; [done|]. intros [= ->]. done.
Qed.

Lemma getApiQueryParams_app (P : ScopeParams.t) (C : BranchMcpConfig.t) (v : string) :
  truthy (ScopeParams.app_id P) ?? truthy (BranchMcpConfig.app_id C) = Some v →
  getApiQueryParams P C = {[ "app_id" := v ]}.
Proof.
  unfold getApiQueryParams. intros Hv.
  destruct (truthy (ScopeParams.app_id P)) as [a|] eqn:Ha; simpl in Hv.
  - injection Hv as ->. apply truthy_Some_inv in Ha as [_ Hne].
    rewrite lookup_insert_eq, (truthy_Some _ Hne). done.
  - rewrite Hv. apply truthy_Some_inv in Hv as [_ Hne].
    rewrite lookup_insert_eq, (truthy_Some _ Hne). done.
Qed.

Lemma getApiQueryParams_no_app (P : ScopeParams.t) (C : BranchMcpConfig.t) :
  blank (ScopeParams.app_id P) → blank (BranchMcpConfig.app_id C) →
  getApiQueryParams P C =
    match truthy (ScopeParams.organization_id P)
            ?? truthy (BranchMcpConfig.organization_id C) with
    | Some w => {[ "organization_id" := w ]}
    | None => ∅
    end.
Proof.
  intros HP HC. unfold getApiQueryParams.
  rewrite (truthy_blank _ HP), (truthy_blank _ HC), lookup_empty. simpl.
  destruct (truthy (ScopeParams.organization_id P)); simpl; [done|].
  by destruct (truthy (BranchMcpConfig.organization_id C)).
Qed.

(** ** The credential resolver *)

(** C1, as amended: for every field other than the two names of the access
    token ([branch_key], [branch_secret], [app_id], [organization_id]) the
    resolved value is the caller's value if present, else the
    configuration's value if present, else absent; the two access-token
    slots hold the first present value among the caller's [api_key], the
    caller's [auth_token], the configuration's [api_key] and the
    configuration's [auth_token]. *)
Theorem getResolvedAuth_field_precedence
    (P : AuthParams.t) (C : BranchMcpConfig.t) (F : CredField) :
  (isTokenField F = false →
   resolvedField (getResolvedAuth P C) F = fieldPrecedence P C F) ∧
  (isTokenField F = true →
   resolvedField (getResolvedAuth P C) F = firstPresent (tokenCandidates P C)).
Proof.
  destruct P as [pa pk ps pi po pt], C as [ck cu cs ca ci co ct].
  split; intros HF; destruct F; try discriminate HF;
    unfold fieldPrecedence; simpl.
  - by destruct pk, ck.
  - by destruct ps, cs.
  - by destruct pi, ci.
  - by destruct po, co.
  - by destruct pa, pt, ca, ct.
  - by destruct pa, pt, ca, ct.
Qed.

Lemma getResolvedAuth_field_precedence_witness :
  resolvedField
    (getResolvedAuth
       (AuthParams.mk None (Some "pk") None (Some "") None (Some "T"))
       (BranchMcpConfig.mk (Some "ck") None (Some "cs") (Some "K") (Some "A") None None))
    F_app_id = Some "" ∧
  resolvedField
    (getResolvedAuth
       (AuthParams.mk None (Some "pk") None (Some "") None (Some "T"))
       (BranchMcpConfig.mk (Some "ck") None (Some "cs") (Some "K") (Some "A") None None))
    F_api_key = Some "T".
Proof.
  split.
  - apply (getResolvedAuth_field_precedence
             (AuthParams.mk None (Some "pk") None (Some "") None (Some "T"))
             (BranchMcpConfig.mk (Some "ck") None (Some "cs") (Some "K") (Some "A") None None)
             F_app_id).
    reflexivity.
  - apply (getResolvedAuth_field_precedence
             (AuthParams.mk None (Some "pk") None (Some "") None (Some "T"))
             (BranchMcpConfig.mk (Some "ck") None (Some "cs") (Some "K") (Some "A") None None)
             F_api_key).
    reflexivity.
Defined.

(** C1 as stated fails on the access-token slots: with params
    [{auth_token: "T"}] and config [{api_key: "K"}] the per-field rule
    gives [api_key = "K"], the resolver gives ["T"]. *)
Lemma getResolvedAuth_api_key_not_per_field :
  fieldPrecedence
    (AuthParams.mk None None None None None (Some "T"))
    (BranchMcpConfig.mk None None None (Some "K") None None None)
    F_api_key = Some "K" ∧
  resolvedField
    (getResolvedAuth
       (AuthParams.mk None None None None None (Some "T"))
       (BranchMcpConfig.mk None None None (Some "K") None None None))
    F_api_key = Some "T" ∧
  ¬ (∀ (P : AuthParams.t) (C : BranchMcpConfig.t) (F : CredField),
       resolvedField (getResolvedAuth P C) F = fieldPrecedence P C F).
Proof.
  split; [reflexivity|]. split; [reflexivity|].
  intros H.
  specialize (H (AuthParams.mk None None None None None (Some "T"))
                (BranchMcpConfig.mk None None None (Some "K") None None None)
                F_api_key).
  discriminate H.
Qed.

(** C2: the resolver computes one access-token value, the first present
    among [P.api_key], [P.auth_token], [C.api_key], [C.auth_token] (absent
    if none is), and writes it to both the [api_key] and the [auth_token]
    slot; params [{auth_token: "T"}] with config [{}] resolve to
    [api_key = "T"] and [auth_token = "T"]. *)
Theorem getResolvedAuth_token_synonyms :
  (∀ (P : AuthParams.t) (C : BranchMcpConfig.t),
     ResolvedAuth.api_key (getResolvedAuth P C) = firstPresent (tokenCandidates P C) ∧
     ResolvedAuth.auth_token (getResolvedAuth P C) = firstPresent (tokenCandidates P C)) ∧
  (let R := getResolvedAuth (AuthParams.mk None None None None None (Some "T"))
                            BranchMcpConfig.empty in
   ResolvedAuth.api_key R = Some "T" ∧ ResolvedAuth.auth_token R = Some "T").
Proof.
  split; [|by split].
  intros [pa pk ps pi po pt] [ck cu cs ca ci co ct]. simpl.
  by destruct pa, pt, ca, ct.
Qed.

(** C8: the [api_key] slot and the [auth_token] slot of the resolved
    credentials always hold the same value: both present and equal, or
    both absent. *)
Theorem getResolvedAuth_token_slots_equal (P : AuthParams.t) (C : BranchMcpConfig.t) :
  ResolvedAuth.api_key (getResolvedAuth P C)
    = ResolvedAuth.auth_token (getResolvedAuth P C) ∧
  ((∃ v, ResolvedAuth.api_key (getResolvedAuth P C) = Some v ∧
         ResolvedAuth.auth_token (getResolvedAuth P C) = Some v) ∨
   (ResolvedAuth.api_key (getResolvedAuth P C) = None ∧
    ResolvedAuth.auth_token (getResolvedAuth P C) = None)).
Proof.
  split; [reflexivity|]. simpl.
  destruct (AuthParams.api_key P ?? AuthParams.auth_token P
              ?? BranchMcpConfig.api_key C ?? BranchMcpConfig.auth_token C) as [v|].
  - left. by exists v.
  - by right.
Qed.

(** ** The scope builder *)

(** C3, as amended: with "present" read as "present and not the empty
    string", the scope builder returns exactly [{app_id: v}] where [v] is
    the caller's [app_id] if usable, else the configuration's, whatever
    the organization identifiers are; when no application identifier is
    usable it returns [{organization_id: w}] by the same two-step rule;
    and it returns the empty object when none of the four is usable. *)
Theorem getApiQueryParams_scope (P : ScopeParams.t) (C : BranchMcpConfig.t) :
  (∀ v, ScopeParams.app_id P = Some v → v ≠ "" →
        getApiQueryParams P C = {[ "app_id" := v ]}) ∧
  (∀ v, blank (ScopeParams.app_id P) → BranchMcpConfig.app_id C = Some v → v ≠ "" →
        getApiQueryParams P C = {[ "app_id" := v ]}) ∧
  (blank (ScopeParams.app_id P) → blank (BranchMcpConfig.app_id C) →
   (∀ w, ScopeParams.organization_id P = Some w → w ≠ "" →
         getApiQueryParams P C = {[ "organization_id" := w ]}) ∧
   (∀ w, blank (ScopeParams.organization_id P) →
         BranchMcpConfig.organization_id C = Some w → w ≠ "" →
         getApiQueryParams P C = {[ "organization_id" := w ]}) ∧
   (blank (ScopeParams.organization_id P) →
    blank (BranchMcpConfig.organization_id C) →
    getApiQueryParams P C = ∅)).
Proof.
  split; [|split].
  - intros v Hv Hne. apply getApiQueryParams_app.
    by rewrite Hv, (truthy_Some _ Hne).
  - intros v HP Hv Hne. apply getApiQueryParams_app.
    by rewrite (truthy_blank _ HP), Hv, (truthy_Some _ Hne).
  - intros HP HC. rewrite (getApiQueryParams_no_app _ _ HP HC).
    split; [|split].
    + intros w Hw Hne. by rewrite Hw, (truthy_Some _ Hne).
    + intros w HPo Hw Hne. by rewrite (truthy_blank _ HPo), Hw, (truthy_Some _ Hne).
    + intros HPo HCo. by rewrite (truthy_blank _ HPo), (truthy_blank _ HCo).
Qed.

Lemma getApiQueryParams_scope_witness :
  getApiQueryParams (ScopeParams.mk (Some "A") (Some "B"))
    (BranchMcpConfig.mk None None None None (Some "C") None None)
    = {[ "app_id" := "A" ]} ∧
  getApiQueryParams (ScopeParams.mk (Some "") (Some "B"))
    (BranchMcpConfig.mk None None None None (Some "C") None None)
    = {[ "app_id" := "C" ]} ∧
  getApiQueryParams ScopeParams.empty
    (BranchMcpConfig.mk None None None None None (Some "Z") None)
    = {[ "organization_id" := "Z" ]} ∧
  getApiQueryParams (ScopeParams.mk (Some "") None) BranchMcpConfig.empty = ∅.
Proof.
  split; [|split; [|split]].
  - destruct (getApiQueryParams_scope (ScopeParams.mk (Some "A") (Some "B"))
                (BranchMcpConfig.mk None None None None (Some "C") None None))
      as (H & _).
    apply H; [reflexivity | discriminate].
  - destruct (getApiQueryParams_scope (ScopeParams.mk (Some "") (Some "B"))
                (BranchMcpConfig.mk None None None None (Some "C") None None))
      as (_ & H & _).
    apply H; [right; reflexivity | reflexivity | discriminate].
  - destruct (getApiQueryParams_scope ScopeParams.empty
                (BranchMcpConfig.mk None None None None None (Some "Z") None))
      as (_ & _ & H).
    destruct H as (_ & H & _).
    + left; reflexivity.
    + left; reflexivity.
    + apply H; [left; reflexivity | reflexivity | discriminate].
  - destruct (getApiQueryParams_scope (ScopeParams.mk (Some "") None)
                BranchMcpConfig.empty) as (_ & _ & H).
    destruct H as (_ & _ & H).
    + right; reflexivity.
    + left; reflexivity.
    + apply H; left; reflexivity.
Defined.

(** C3 as stated, with "present" meaning "not undefined", fails when the
    caller passes an empty string: for params [{app_id: ""}] and config
    [{app_id: "C"}] the rule asks for [{app_id: ""}], the builder returns
    [{app_id: "C"}]. *)
Lemma getApiQueryParams_empty_app_id_skipped :
  getApiQueryParams (ScopeParams.mk (Some "") None)
    (BranchMcpConfig.mk None None None None (Some "C") None None)
    = {[ "app_id" := "C" ]} ∧
  ¬ scopeRuleByPresence (ScopeParams.mk (Some "") None)
      (BranchMcpConfig.mk None None None None (Some "C") None None).
Proof.
  split; [reflexivity|].
  intros [H _]. specialize (H "" eq_refl).
  apply (f_equal (lookup "app_id")) in H.
  vm_compute in H. discriminate H.
Qed.

(** C10, as amended: the resolver and the scope builder disagree on the
    empty string. When the caller passes [app_id: ""] and the
    configuration holds a non-empty [app_id], the scope builder returns
    the configuration's value and the resolver returns [""]. For
    [organization_id] the resolver returns [""] in the same way, and the
    scope builder never returns the caller's empty value; it returns the
    configuration's organization identifier when no application
    identifier is usable, that is when the caller's and the
    configuration's [app_id] are each absent or empty, and the
    application identifier alone otherwise. *)
Theorem empty_string_asymmetry (P : AuthParams.t) (C : BranchMcpConfig.t) :
  (∀ c, AuthParams.app_id P = Some "" → BranchMcpConfig.app_id C = Some c → c ≠ "" →
        getApiQueryParams (scopeOf P) C = {[ "app_id" := c ]} ∧
        ResolvedAuth.app_id (getResolvedAuth P C) = Some "") ∧
  (∀ z, AuthParams.organization_id P = Some "" →
        BranchMcpConfig.organization_id C = Some z → z ≠ "" →
        ResolvedAuth.organization_id (getResolvedAuth P C) = Some "" ∧
        getApiQueryParams (scopeOf P) C !! "organization_id" ≠ Some "" ∧
        (blank (AuthParams.app_id P) → blank (BranchMcpConfig.app_id C) →
         getApiQueryParams (scopeOf P) C = {[ "organization_id" := z ]}) ∧
        (∀ a, AuthParams.app_id P = Some a → a ≠ "" →
              getApiQueryParams (scopeOf P) C = {[ "app_id" := a ]}) ∧
        (∀ a, blank (AuthParams.app_id P) →
              BranchMcpConfig.app_id C = Some a → a ≠ "" →
              getApiQueryParams (scopeOf P) C = {[ "app_id" := a ]})).
Proof.
  split.
  - intros c HP HC Hne. split.
    + apply getApiQueryParams_app. simpl. by rewrite HP, HC, (truthy_Some _ Hne).
    + simpl. by rewrite HP.
  - intros z HP HC Hne. split; [simpl; by rewrite HP|].
    assert (Horg : truthy (ScopeParams.organization_id (scopeOf P))
                     ?? truthy (BranchMcpConfig.organization_id C) = Some z).
    { simpl. by rewrite HP, HC, (truthy_Some _ Hne). }
    split.
    + destruct (truthy (ScopeParams.app_id (scopeOf P))
                  ?? truthy (BranchMcpConfig.app_id C)) as [a|] eqn:Happ.
      * rewrite (getApiQueryParams_app _ _ _ Happ).
        by rewrite lookup_singleton_ne.
      * assert (blank (ScopeParams.app_id (scopeOf P)) ∧ blank (BranchMcpConfig.app_id C))
          as [HbP HbC].
        { destruct (truthy (ScopeParams.app_id (scopeOf P))) eqn:E1; [done|].
          simpl in Happ. split; by apply truthy_None_blank. }
        rewrite (getApiQueryParams_no_app _ _ HbP HbC), Horg, lookup_singleton_eq.
        congruence.
    + split; [|split].
      * intros HbP HbC.
        by rewrite (getApiQueryParams_no_app (scopeOf P) C HbP HbC), Horg.
      * intros a Ha Hane. apply getApiQueryParams_app. simpl.
        by rewrite Ha, (truthy_Some _ Hane).
      * intros a HbP Ha Hane. apply getApiQueryParams_app. simpl.
        by rewrite (truthy_blank _ HbP), Ha, (truthy_Some _ Hane).
Qed.

Lemma empty_string_asymmetry_witness :
  (getApiQueryParams
     (scopeOf (AuthParams.mk None None None (Some "") (Some "") None))
     (BranchMcpConfig.mk None None None None (Some "C") (Some "Z") None)
     = {[ "app_id" := "C" ]} ∧
   ResolvedAuth.app_id
     (getResolvedAuth (AuthParams.mk None None None (Some "") (Some "") None)
        (BranchMcpConfig.mk None None None None (Some "C") (Some "Z") None))
     = Some "") ∧
  (ResolvedAuth.organization_id
     (getResolvedAuth (AuthParams.mk None None None None (Some "") None)
        (BranchMcpConfig.mk None None None None None (Some "Z") None))
     = Some "" ∧
   getApiQueryParams
     (scopeOf (AuthParams.mk None None None None (Some "") None))
     (BranchMcpConfig.mk None None None None None (Some "Z") None)
     = {[ "organization_id" := "Z" ]}).
Proof.
  split.
  - apply (empty_string_asymmetry
             (AuthParams.mk None None None (Some "") (Some "") None)
             (BranchMcpConfig.mk None None None None (Some "C") (Some "Z") None)).
    + reflexivity.
    + reflexivity.
    + discriminate.
  - pose proof (proj2 (empty_string_asymmetry
             (AuthParams.mk None None None None (Some "") None)
             (BranchMcpConfig.mk None None None None None (Some "Z") None))
             "Z" eq_refl eq_refl) as H.
    destruct H as (H1 & _ & H3 & _).
    + discriminate.
    + split; [exact H1|]. apply H3; left; reflexivity.
Defined.

(** C10 as stated fails for [organization_id]: with the caller's
    [{app_id: "A", organization_id: ""}] and the configuration's
    [{organization_id: "Z"}] the scope builder returns [{app_id: "A"}],
    not the configuration's organization identifier. *)
Lemma organization_id_asymmetry_needs_no_app_id :
  getApiQueryParams
    (scopeOf (AuthParams.mk None None None (Some "A") (Some "") None))
    (BranchMcpConfig.mk None None None None None (Some "Z") None)
    = {[ "app_id" := "A" ]} ∧
  ¬ (∀ (P : AuthParams.t) (C : BranchMcpConfig.t) (z : string),
       AuthParams.organization_id P = Some "" →
       BranchMcpConfig.organization_id C = Some z → z ≠ "" →
       getApiQueryParams (scopeOf P) C = {[ "organization_id" := z ]}).
Proof.
  split; [reflexivity|].
  intros H.
  specialize (H (AuthParams.mk None None None (Some "A") (Some "") None)
                (BranchMcpConfig.mk None None None None None (Some "Z") None)
                "Z" eq_refl eq_refl).
  assert (Hz : "Z" ≠ "") by discriminate. specialize (H Hz).
  apply (f_equal (lookup "app_id")) in H.
  vm_compute in H. discriminate H.
Qed.

(** ** Error normalisation *)

Lemma carriesMessage_getErrorMessage (e : Thrown) (m : string) :
  carriesMessage e m → getErrorMessage e = m.
Proof.
  intros H. destruct H as [props m Hm| |]; [|done..].
  unfold getErrorMessage. simpl. by rewrite Hm.
Qed.

(** C6: [getErrorMessage] is a total function of its argument and returns
    the message of a structured object that carries a string message
    (instances of [Error] included), the argument itself when it is a
    string, and ["Unknown error occurred"] in every other case: numbers,
    [null], [undefined], objects without a string message. *)
Theorem getErrorMessage_policy (e : Thrown) :
  (∀ m, carriesMessage e m → getErrorMessage e = m) ∧
  (∀ s, e = ThrownValue (JString s) → getErrorMessage e = s) ∧
  ((∀ m, ¬ carriesMessage e m) → (∀ s, e ≠ ThrownValue (JString s)) →
   getErrorMessage e = "Unknown error occurred").
Proof.
  split; [apply carriesMessage_getErrorMessage|].
  split; [by intros s ->|].
  intros Hno Hstr.
  destruct e as [v|m|m r].
  - destruct v as [| | | |s| |props]; try done.
    + by destruct (Hstr s).
    + unfold getErrorMessage. simpl.
      destruct (getProp props "message") as [w|] eqn:Hw; [|done].
      destruct w; try done.
      exfalso. eapply Hno. by constructor.
  - destruct (Hno m). constructor.
  - destruct (Hno m). constructor.
Qed.

Lemma getErrorMessage_policy_witness :
  getErrorMessage (ThrownError "x") = "x" ∧
  getErrorMessage (ThrownValue (JString "x")) = "x" ∧
  getErrorMessage (ThrownValue (JObject [("message", JString "x")])) = "x" ∧
  getErrorMessage (ThrownValue (JNumber 123)) = "Unknown error occurred".
Proof.
  split; [|split; [|split]].
  - destruct (getErrorMessage_policy (ThrownError "x")) as (H & _).
    apply H. constructor.
  - destruct (getErrorMessage_policy (ThrownValue (JString "x"))) as (_ & H & _).
    by apply H.
  - destruct (getErrorMessage_policy
                (ThrownValue (JObject [("message", JString "x")]))) as (H & _).
    apply H. by constructor.
  - destruct (getErrorMessage_policy (ThrownValue (JNumber 123))) as (_ & _ & H).
    apply H.
    + intros m Hm. inversion Hm.
    + intros s Hs. discriminate Hs.
Defined.

(** C4, as amended: in the catch blocks of the three Quick Link tools, a
    failure whose response body carries a non-empty string at
    [error.message] is rethrown with that string as its message;
    [handleApiError] reports the status line
    ["Branch API error: <status> <statusText>"] for every failure that
    carries a response, whatever the body holds. *)
Theorem nested_message_preferred
    (tool m0 : string) (response : AxiosResponse.t) (m : string) :
  optMember (optMember (AxiosResponse.data response) "error") "message" = JString m →
  m ≠ "" →
  BranchApiError.message (thrown (toolCatch tool (ThrownAxiosError m0 (Some response)))) = m ∧
  BranchApiError.message (handleApiError (ThrownAxiosError m0 (Some response)))
    = statusLine response.
Proof.
  intros Hm Hne. split; [|reflexivity].
  unfold toolCatch, nestedErrorMessage. simpl. rewrite Hm. simpl.
  by rewrite bool_decide_true.
Qed.

Lemma nested_message_preferred_witness :
  BranchApiError.message
    (thrown (toolCatch "branch_create_quick_link"
       (ThrownAxiosError "Request failed with status code 404"
          (Some (AxiosResponse.mk
                   (JObject [("error", JObject [("message", JString "Invalid key")])])
                   404 "Not Found")))))
    = "Invalid key" ∧
  BranchApiError.message
    (handleApiError
       (ThrownAxiosError "Request failed with status code 404"
          (Some (AxiosResponse.mk
                   (JObject [("error", JObject [("message", JString "Invalid key")])])
                   404 "Not Found"))))
    = "Branch API error: 404 Not Found".
Proof.
  apply (nested_message_preferred "branch_create_quick_link"
           "Request failed with status code 404"
           (AxiosResponse.mk
              (JObject [("error", JObject [("message", JString "Invalid key")])])
              404 "Not Found")
           "Invalid key").
  - reflexivity.
  - discriminate.
Defined.

(** C4 as stated fails for [handleApiError]: for a 404 response whose
    body is [{error: {message: "Invalid key"}}] it reports the status
    line, not the nested message. *)
Lemma handleApiError_ignores_nested_message :
  BranchApiError.message
    (handleApiError
       (ThrownAxiosError "Request failed with status code 404"
          (Some (AxiosResponse.mk
                   (JObject [("error", JObject [("message", JString "Invalid key")])])
                   404 "Not Found"))))
    = "Branch API error: 404 Not Found" ∧
  ¬ prefersNestedMessage handleApiError.
Proof.
  split; [reflexivity|].
  intros H.
  specialize (H "Request failed with status code 404"
                (AxiosResponse.mk
                   (JObject [("error", JObject [("message", JString "Invalid key")])])
                   404 "Not Found")
                "Invalid key" eq_refl).
  discriminate H.
Qed.

(** C5, as amended: [handleApiError] leaves [status] absent exactly when
    the failure carries no response, and otherwise sets it to the status
    of the response; the catch blocks of the Quick Link and QR code tools
    always set [status]: to the status of the response when there is one,
    and to [0] otherwise. *)
Theorem status_by_normaliser (tool : string) (error : Thrown) :
  BranchApiError.status (handleApiError error)
    = AxiosResponse.status <$> responseOf error ∧
  (BranchApiError.status (handleApiError error) = None ↔ responseOf error = None) ∧
  BranchApiError.status (thrown (toolCatch tool error))
    = Some (default 0%Z (AxiosResponse.status <$> responseOf error)).
Proof.
  destruct error as [v|m|m [r|]]; by repeat split.
Qed.

(** C5 as stated fails for the catch blocks: a network failure without a
    response is rethrown with [status = 0], not with an absent status. *)
Lemma toolCatch_status_never_absent :
  BranchApiError.status
    (thrown (toolCatch "branch_create_qr_code" (ThrownAxiosError "Network Error" None)))
    = Some 0%Z ∧
  ¬ statusDiscriminates (λ error, thrown (toolCatch "branch_create_qr_code" error)).
Proof.
  split; [reflexivity|].
  intros H.
  destruct (H (ThrownAxiosError "Network Error" None)) as [_ H2].
  specialize (H2 eq_refl). discriminate H2.
Qed.

(** ** The log redactor on data trees *)

(** Induction on data trees, with the hypothesis for every element of an
    array and every property value of an object. *)
Lemma JsValue_ind (P : JsValue → Prop) :
  P JUndefined → P JNull → (∀ b, P (JBool b)) → (∀ n, P (JNumber n)) →
  (∀ s, P (JString s)) →
  (∀ elems, Forall P elems → P (JArray elems)) →
  (∀ props, Forall (λ kv, P kv.2) props → P (JObject props)) →
  ∀ v, P v.
Proof.
  intros Hu Hn Hb Hz Hs Ha Ho.
  fix IH 1. intros [| |b|n|s|elems|props].
  - exact Hu.
  - exact Hn.
  - apply Hb.
  - apply Hz.
  - apply Hs.
  - apply Ha. revert elems. fix IHl 1.
    intros [|x elems]; constructor; [apply IH | apply IHl].
  - apply Ho. revert props. fix IHl 1.
    intros [|[k x] props]; constructor; [apply IH | apply IHl].
Qed.

Lemma assignedProps_cons {A B : Type} (f : string → A → B) (k : string) (v : A)
    (props : list (string * A)) :
  assignedProps f ((k, v) :: props)
  = if isProtoKey k then assignedProps f props
    else (k, f k v) :: assignedProps f props.
Proof. unfold assignedProps. simpl. by destruct (isProtoKey k). Qed.

Lemma assignedProps_app {A B : Type} (f : string → A → B)
    (ps qs : list (string * A)) :
  assignedProps f (ps ++ qs) = assignedProps f ps ++ assignedProps f qs.
Proof. apply omap_app. Qed.

Lemma getProp_assignedProps {A B : Type} (f : string → A → B)
    (props : list (string * A)) (key : string) :
  getProp (assignedProps f props) key
  = if isProtoKey key then None else f key <$> getProp props key.
Proof.
  induction props as [|[k v] props IH]; [by destruct (isProtoKey key)|].
  rewrite assignedProps_cons. simpl.
  destruct (isProtoKey k) eqn:Hk.
  - rewrite IH. case_decide as Hkey; [|done]. subst k. by rewrite Hk.
  - simpl. case_decide as Hkey; [|done]. subst k. by rewrite Hk.
Qed.


Lemma assignedProps_twice {A B C : Type} (f : string → A → B) (g : string → B → C)
    (props : list (string * A)) :
  assignedProps g (assignedProps f props) = assignedProps (λ k v, g k (f k v)) props.
Proof.
  induction props as [|[k v] props IH]; [done|].
  rewrite !assignedProps_cons. destruct (isProtoKey k) eqn:Hk; [done|].
  by rewrite assignedProps_cons, Hk, IH.
Qed.

Lemma assignedProps_ext {A B : Type} (f g : string → A → B)
    (props : list (string * A)) :
  Forall (λ kv, f kv.1 kv.2 = g kv.1 kv.2) props →
  assignedProps f props = assignedProps g props.
Proof.
  induction 1 as [|[k v] props Hkv _ IH]; [done|].
  rewrite !assignedProps_cons, IH. simpl in Hkv. by rewrite Hkv.
Qed.


(** The lookup of a key in the property list of a redacted object. *)
Local Ltac redacted_lookup_with rw :=
  rw (getProp_assignedProps
        (λ k v, if isSensitive k then JString REDACTED_PLACEHOLDER
                else sanitizeLogObject v)).

Local Tactic Notation "redacted_lookup" :=
  redacted_lookup_with ltac:(fun eqn => rewrite eqn).

Local Tactic Notation "redacted_lookup" "in" hyp(H) :=
  redacted_lookup_with ltac:(fun eqn => rewrite eqn in H).

Lemma valueAt_app (v : JsValue) (p q : list PathStep) :
  valueAt v (p ++ q) = valueAt v p ≫= λ w, valueAt w q.
Proof.
  revert v. induction p as [|[key|i] p IH]; intros v; [done|..]; simpl.
  - destruct v; try done. destruct (getProp props key); [apply IH|done].
  - destruct v; try done. destruct (elems !! i); [apply IH|done].
Qed.

Lemma cleanPath_app (p q : list PathStep) :
  cleanPath (p ++ q) = cleanPath p && cleanPath q.
Proof.
  induction p as [|[key|i] p IH]; simpl; [done| |done].
  by rewrite IH, !andb_assoc.
Qed.

Lemma cleanPath_cons (key : string) (path : list PathStep) :
  cleanPath (AtKey key :: path) = true →
  isSensitive key = false ∧ isProtoKey key = false ∧ cleanPath path = true.
Proof.
  simpl. intros H. apply andb_true_iff in H as [H Hc].
  apply andb_true_iff in H as [Hk Hp].
  by apply negb_true_iff in Hk, Hp.
Qed.

Lemma valueAt_sanitize_clean (path : list PathStep) (obj x : JsValue) :
  cleanPath path = true → valueAt obj path = Some x →
  valueAt (sanitizeLogObject obj) path = Some (sanitizeLogObject x).
Proof.
  revert obj. induction path as [|[key|i] path IH]; intros obj Hc Hx.
  - simpl in *. by injection Hx as ->.
  - apply cleanPath_cons in Hc as (Hk & Hproto & Hc).
    destruct obj; try done. simpl in *.
    redacted_lookup. rewrite Hproto.
    destruct (getProp props key) as [w|]; [|done]. simpl. rewrite Hk. by apply IH.
  - destruct obj; try done. simpl in *. rewrite list_lookup_fmap.
    destruct (elems !! i) as [w|]; [|done]. simpl. by apply IH.
Qed.



Lemma valueAt_sanitize_sensitive (path : list PathStep) (key : string)
    (obj x : JsValue) :
  cleanPath path = true → isSensitive key = true →
  valueAt obj (path ++ [AtKey key]) = Some x →
  valueAt (sanitizeLogObject obj) (path ++ [AtKey key])
    = Some (JString REDACTED_PLACEHOLDER).
Proof.
  intros Hc Hk. rewrite !valueAt_app. intros Hx.
  destruct (valueAt obj path) as [w|] eqn:Hw; [|done].
  rewrite (valueAt_sanitize_clean _ _ _ Hc Hw). simpl in *.
  destruct w; try done. simpl.
  redacted_lookup.
  assert (Hproto : isProtoKey key = false).
  { unfold isProtoKey. case_bool_decide as Hp; [|done]. by subst key. }
  rewrite Hproto.
  destruct (getProp props key); [|done]. simpl. by rewrite Hk.
Qed.

(** C7: the claim fails for an object that has an own property
    [__proto__], such as [JSON.parse] builds from
    [{"level": "info", "__proto__": {"a": 1}}]. The assignment
    [newObj['__proto__'] = ...] adds no property to the copy, so the
    result has the single own key [level]: the value under the
    non-sensitive key [__proto__] of the input is not found in the
    result. *)
Theorem sanitizeLogObject_drops_proto_key :
  sanitizeLogObject
    (JObject [("level", JString "info");
              ("__proto__", JObject [("a", JNumber 1)])])
  = JObject [("level", JString "info")] ∧
  isSensitive "__proto__" = false ∧
  valueAt
    (JObject [("level", JString "info");
              ("__proto__", JObject [("a", JNumber 1)])])
    [AtKey "__proto__"] = Some (JObject [("a", JNumber 1)]) ∧
  valueAt
    (sanitizeLogObject
       (JObject [("level", JString "info");
                 ("__proto__", JObject [("a", JNumber 1)])]))
    [AtKey "__proto__"] = None.
Proof. by repeat split. Qed.


(** The scenario of the specification, evaluated. *)
Example sanitizeLogObject_scenario :
  sanitizeLogObject
    (JObject [("branch_key", JString "k");
              ("nested", JObject [("auth_token", JString "t"); ("ok", JString "v")])])
  = JObject [("branch_key", JString "[REDACTED]");
             ("nested", JObject [("auth_token", JString "[REDACTED]");
                                 ("ok", JString "v")])].
Proof. reflexivity. Qed.


(** ** The log redactor on the heap: what it leaves alone *)

Lemma preserved_refl (σ : Heap) : preserved σ σ.
Proof. by intros l cell. Qed.

Lemma preserved_trans (σ1 σ2 σ3 : Heap) :
  preserved σ1 σ2 → preserved σ2 σ3 → preserved σ1 σ3.
Proof. intros H12 H23 l cell Hl. by apply H23, H12. Qed.

Lemma preserved_alloc (σ : Heap) (cell : HeapCell) : preserved σ (alloc σ cell).1.
Proof. intros l c Hl. simpl. by apply lookup_app_l_Some. Qed.

Lemma preserved_insert_new (σ τ : Heap) (a : loc) (cell : HeapCell) :
  preserved σ τ → σ !! a = None → preserved σ (<[a := cell]> τ).
Proof.
  intros Hp Ha l c Hl.
  rewrite list_lookup_insert_ne; [by apply Hp | congruence].
Qed.

Lemma preserved_assignProp (σ τ : Heap) (a : loc) (key : string) (v : HeapValue) :
  preserved σ τ → σ !! a = None → preserved σ (assignProp τ a key v).
Proof.
  intros Hp Ha. unfold assignProp. destruct (isProtoKey key); [done|].
  destruct (τ !! a) as [[|props]|]; try done. by apply preserved_insert_new.
Qed.

Lemma preserved_assignIndex (σ τ : Heap) (a : loc) (i : nat) (v : HeapValue) :
  preserved σ τ → σ !! a = None → preserved σ (assignIndex τ a i v).
Proof.
  intros Hp Ha. unfold assignIndex.
  destruct (τ !! a) as [[elems|]|]; try done. by apply preserved_insert_new.
Qed.

Lemma forEachM_invariant {A : Type} (I : Heap → Prop)
    (body : Heap → A → option Heap) (items : list A) (σ σ' : Heap) :
  (∀ τ x τ', I τ → body τ x = Some τ' → I τ') →
  I σ → forEachM body σ items = Some σ' → I σ'.
Proof.
  intros Hstep. revert σ.
  induction items as [|x items IH]; intros σ Hσ Hrun; simpl in Hrun.
  - by injection Hrun as <-.
  - destruct (body σ x) as [τ|] eqn:Hb; [|done]. eauto.
Qed.

Lemma mapStep_preserved (callback : Heap → HeapValue → option (Heap * HeapValue))
    (σ τ τ' : Heap) (l a : loc) (i : nat) :
  (∀ τ v τ' r, callback τ v = Some (τ', r) → preserved τ τ') →
  σ !! a = None → preserved σ τ →
  mapStep callback l a τ i = Some τ' → preserved σ τ'.
Proof.
  intros Hcb Ha Hp. unfold mapStep.
  destruct (τ !! l) as [[current|]|]; try (by intros [= <-]).
  destruct (current !! i) as [element|]; [|by intros [= <-]].
  destruct (callback τ element) as [[τ1 mapped]|] eqn:Hc; [|done].
  simpl. intros [= <-].
  apply preserved_assignIndex; [|done].
  eapply preserved_trans; [done|]. by eapply Hcb.
Qed.

Lemma forInStep_preserved (recur : Heap → HeapValue → option (Heap * HeapValue))
    (σ τ τ' : Heap) (l a : loc) (key : string) :
  (∀ τ v τ' r, recur τ v = Some (τ', r) → preserved τ τ') →
  σ !! a = None → preserved σ τ →
  forInStep recur l a τ key = Some τ' → preserved σ τ'.
Proof.
  intros Hrec Ha Hp. unfold forInStep.
  destruct (τ !! l) as [[|current]|]; try (by intros [= <-]).
  destruct (getProp current key) as [value|]; [|by intros [= <-]].
  destruct (isSensitive key).
  - intros [= <-]. by apply preserved_assignProp.
  - destruct (recur τ value) as [[τ1 sanitized]|] eqn:Hc; [|done].
    simpl. intros [= <-].
    apply preserved_assignProp; [|done].
    eapply preserved_trans; [done|]. by eapply Hrec.
Qed.

(** Whatever the heap holds, cyclic structures included: a run of the
    redactor that finishes has changed no cell that existed before. *)
Lemma sanitizeLogObjectH_preserved (fuel : nat) (σ σ' : Heap) (obj r : HeapValue) :
  sanitizeLogObjectH fuel σ obj = Some (σ', r) → preserved σ σ'.
Proof.
  revert σ σ' obj r.
  induction fuel as [|fuel IH]; intros σ σ' obj r Hrun; [done|].
  simpl in Hrun.
  destruct obj as [| | | | |l]; try (injection Hrun as <- <-; apply preserved_refl).
  assert (Hnew : σ !! length σ = None) by (by apply lookup_ge_None).
  destruct (σ !! l) as [[elems|props]|]; [| |done].
  - destruct (forEachM _ _ _) as [τ|] eqn:Hloop; [|done].
    simpl in Hrun. injection Hrun as <- <-.
    eapply (forEachM_invariant (preserved σ)); [| |exact Hloop].
    + intros τ1 i τ2 Hp Hstep. eapply mapStep_preserved; [|done|done|done].
      intros ? ? ? ?. apply IH.
    + apply (preserved_alloc σ).
  - destruct (forEachM _ _ _) as [τ|] eqn:Hloop; [|done].
    simpl in Hrun. injection Hrun as <- <-.
    eapply (forEachM_invariant (preserved σ)); [| |exact Hloop].
    + intros τ1 i τ2 Hp Hstep. eapply forInStep_preserved; [|done|done|done].
      intros ? ? ? ?. apply IH.
    + apply (preserved_alloc σ).
Qed.

(** ** The log redactor on the heap: agreement with the data-tree function *)

Lemma all2_impl_Forall {A B : Type} (R R' : A → B → Prop) (xs : list A) (ys : list B) :
  Forall (λ x, ∀ y, R x y → R' x y) xs → all2 R xs ys → all2 R' xs ys.
Proof.
  intros HF. revert ys.
  induction HF as [|x xs Hx _ IH]; intros [|y ys]; simpl; try done.
  intros [Hxy H]. split; [by apply Hx | by apply IH].
Qed.

Lemma all2_impl {A B : Type} (R R' : A → B → Prop) (xs : list A) (ys : list B) :
  (∀ x y, R x y → R' x y) → all2 R xs ys → all2 R' xs ys.
Proof.
  intros HR. apply all2_impl_Forall, Forall_forall. intros x _. apply HR.
Qed.

Lemma all2_app {A B : Type} (R : A → B → Prop) (xs xs' : list A) (ys ys' : list B) :
  all2 R xs ys → all2 R xs' ys' → all2 R (xs ++ xs') (ys ++ ys').
Proof.
  revert ys. induction xs as [|x xs IH]; intros [|y ys]; simpl; try done.
  intros [Hxy H] H'. split; [done | by apply IH].
Qed.

Lemma represents_transfer (D D' : loc → Prop) (σ σ' : Heap) (t : JsValue)
    (v : HeapValue) :
  (∀ l cell, D l → σ !! l = Some cell → D' l ∧ σ' !! l = Some cell) →
  represents D σ t v → represents D' σ' t v.
Proof.
  intros Hx. revert v.
  induction t as [| | | | |ts IH|tps IH] using JsValue_ind;
    intros v Hr; destruct v as [| | | | |l]; simpl in *; try done.
  - destruct Hr as (HD & elems & Hl & Hall).
    destruct (Hx _ _ HD Hl) as [HD' Hl'].
    split; [done|]. exists elems. split; [done|].
    by eapply all2_impl_Forall.
  - destruct Hr as (HD & props & Hl & Hnd & Hall).
    destruct (Hx _ _ HD Hl) as [HD' Hl'].
    split; [done|]. exists props. split; [done|]. split; [done|].
    eapply all2_impl_Forall; [|done].
    eapply Forall_impl; [exact IH|]. simpl.
    intros tp Htp p [Hk Hp]. split; [done | by apply Htp].
Qed.

Lemma represents_preserved (D : loc → Prop) (σ σ' : Heap) (t : JsValue)
    (v : HeapValue) :
  preserved σ σ' → represents D σ t v → represents D σ' t v.
Proof. intros Hp. apply represents_transfer. intros l cell HD Hl. split; [done | by apply Hp]. Qed.

Lemma depth_array_elems (elems : list JsValue) (n : nat) :
  depth (JArray elems) < S n → Forall (λ t, depth t < n) elems.
Proof.
  simpl. intros H. apply Nat.succ_lt_mono in H. revert H.
  induction elems as [|x elems IH]; simpl; intros H; constructor; [lia|].
  apply IH. lia.
Qed.

Lemma depth_object_props (props : list (string * JsValue)) (n : nat) :
  depth (JObject props) < S n → Forall (λ kv, depth kv.2 < n) props.
Proof.
  simpl. intros H. apply Nat.succ_lt_mono in H. revert H.
  induction props as [|x props IH]; simpl; intros H; constructor; [lia|].
  apply IH. lia.
Qed.

Lemma getProp_app_notin {A : Type} (ps qs : list (string * A)) (key : string) :
  key ∉ ps.*1 → getProp (ps ++ qs) key = getProp qs key.
Proof.
  induction ps as [|[k v] ps IH]; [done|]. simpl. intros Hk.
  apply not_elem_of_cons in Hk as [Hne Hk].
  rewrite decide_False; [by apply IH | congruence].
Qed.

Lemma setProp_notin {A : Type} (ps : list (string * A)) (key : string) (v : A) :
  key ∉ ps.*1 → setProp ps key v = ps ++ [(key, v)].
Proof.
  induction ps as [|[k w] ps IH]; [done|]. simpl. intros Hk.
  apply not_elem_of_cons in Hk as [Hne Hk].
  rewrite decide_False; [by rewrite IH | congruence].
Qed.

Lemma represents_after_store (τ τ1 : Heap) (a : loc) (cell : HeapCell)
    (t : JsValue) (v : HeapValue) :
  preserved τ τ1 → a < length τ →
  represents (allocatedFrom (length τ)) τ1 t v →
  represents (allocatedFrom (S a)) (<[a := cell]> τ1) t v.
Proof.
  intros Hp Ha. apply represents_transfer. unfold allocatedFrom.
  intros l c Hl Hc. split; [lia|].
  rewrite list_lookup_insert_ne; [done | lia].
Qed.

Lemma represents_kept_by_store (τ τ1 : Heap) (a : loc) (cell : HeapCell)
    (t : JsValue) (v : HeapValue) :
  preserved τ τ1 →
  represents (allocatedFrom (S a)) τ t v →
  represents (allocatedFrom (S a)) (<[a := cell]> τ1) t v.
Proof.
  intros Hp. apply represents_transfer. unfold allocatedFrom.
  intros l c Hl Hc. split; [done|].
  rewrite list_lookup_insert_ne; [by apply Hp | lia].
Qed.

(** The two loops, from any round on. [σ] is the heap at the call, [l]
    the argument, [length σ] the location of the fresh array or object,
    and [n] the fuel of the recursive calls. The cells of [σ] stay as
    they were, the fresh cell holds the results so far, and these only
    reach cells allocated after the fresh one. *)
Section Loops.
Variables (n : nat) (σ : Heap) (l : loc).

Lemma mapLoop_runs (ts_rest : list JsValue) :
  Forall (λ t, ∀ τ v, represents anywhere τ t v → sanitizesTo n τ v t) ts_rest →
  ∀ (ts_done : list JsValue) (elems_done elems_rest rs : list HeapValue) (τ : Heap),
    σ !! l = Some (HArray (elems_done ++ elems_rest)) →
    preserved σ τ →
    τ !! length σ = Some (HArray (rs ++ replicate (length elems_rest) HUndefined)) →
    length rs = length elems_done →
    all2 (represents anywhere σ) ts_rest elems_rest →
    all2 (represents (allocatedFrom (S (length σ))) τ) (sanitizeLogObject <$> ts_done) rs →
    ∃ τ' rs',
      forEachM (mapStep (sanitizeLogObjectH n) l (length σ)) τ
        (seq (length elems_done) (length elems_rest)) = Some τ' ∧
      preserved σ τ' ∧
      τ' !! length σ = Some (HArray rs') ∧
      all2 (represents (allocatedFrom (S (length σ))) τ')
        (sanitizeLogObject <$> (ts_done ++ ts_rest)) rs'.
Proof.
  induction 1 as [|t ts_rest Ht _ IH];
    intros ts_done elems_done elems_rest rs τ Hl Hp Ha Hlen Hin Hout.
  - destruct elems_rest; [|done]. simpl in *.
    exists τ, rs. rewrite !app_nil_r in *. done.
  - destruct elems_rest as [|e es]; [done|]. destruct Hin as [He Hes].
    destruct (Ht τ e (represents_preserved _ _ _ _ _ Hp He))
      as (τ1 & r & Hrun & Hp1 & Hr).
    assert (Hnew : σ !! length σ = None) by (by apply lookup_ge_None).
    assert (Halen : length σ < length τ) by (by eapply lookup_lt_Some).
    set (cell := HArray ((rs ++ [r]) ++ replicate (length es) HUndefined)).
    assert (Hstep : mapStep (sanitizeLogObjectH n) l (length σ) τ (length elems_done)
                    = Some (<[length σ := cell]> τ1)).
    { unfold mapStep. rewrite (Hp _ _ Hl).
      rewrite list_lookup_middle by done. rewrite Hrun. simpl.
      unfold assignIndex. rewrite (Hp1 _ _ Ha). do 3 f_equal.
      rewrite <- Hlen, insert_app_r_alt, Nat.sub_diag by done. simpl.
      by rewrite <- app_assoc. }
    destruct (IH (ts_done ++ [t]) (elems_done ++ [e]) es (rs ++ [r])
                (<[length σ := cell]> τ1)) as (τ' & rs' & Hloop & Hp' & Ha' & Hall').
    + by rewrite <- app_assoc.
    + apply preserved_insert_new; [|done]. by eapply preserved_trans.
    + apply list_lookup_insert_eq. by eapply lookup_lt_Some, Hp1.
    + rewrite !length_app. simpl. lia.
    + done.
    + rewrite fmap_app. apply all2_app.
      * eapply all2_impl; [|exact Hout]. intros x y.
        by apply represents_kept_by_store.
      * simpl. split; [|done]. by apply (represents_after_store τ).
    + exists τ', rs'. split; [|split; [done|split; [done|]]].
      * simpl. rewrite Hstep.
        rewrite length_app in Hloop. simpl in Hloop.
        by rewrite Nat.add_1_r in Hloop.
      * by rewrite <- app_assoc in Hall'.
Qed.

Lemma forInLoop_runs (tps_rest : list (string * JsValue)) :
  Forall (λ tp, ∀ τ v, represents anywhere τ tp.2 v → sanitizesTo n τ v tp.2)
    tps_rest →
  ∀ (tps_done : list (string * JsValue))
    (props_done props_rest out : list (string * HeapValue)) (τ : Heap),
    σ !! l = Some (HObject (props_done ++ props_rest)) →
    NoDup (props_done ++ props_rest).*1 →
    preserved σ τ →
    τ !! length σ = Some (HObject out) →
    out.*1 = filter (λ key, key ≠ "__proto__") props_done.*1 →
    all2 (λ tp p, tp.1 = p.1 ∧ represents anywhere σ tp.2 p.2) tps_rest props_rest →
    all2 (λ tp p, tp.1 = p.1 ∧ represents (allocatedFrom (S (length σ))) τ tp.2 p.2)
      (assignedProps
         (λ key value, if isSensitive key then JString REDACTED_PLACEHOLDER
                       else sanitizeLogObject value) tps_done) out →
    ∃ τ' out',
      forEachM (forInStep (sanitizeLogObjectH n) l (length σ)) τ props_rest.*1
        = Some τ' ∧
      preserved σ τ' ∧
      τ' !! length σ = Some (HObject out') ∧
      out'.*1 = filter (λ key, key ≠ "__proto__") (props_done ++ props_rest).*1 ∧
      all2 (λ tp p, tp.1 = p.1 ∧ represents (allocatedFrom (S (length σ))) τ' tp.2 p.2)
        (assignedProps
           (λ key value, if isSensitive key then JString REDACTED_PLACEHOLDER
                         else sanitizeLogObject value) (tps_done ++ tps_rest)) out'.
Proof.
  induction 1 as [|[k' t] tps_rest Ht _ IH];
    intros tps_done props_done props_rest out τ Hl Hnd Hp Ha Hkeys Hin Hout.
  - destruct props_rest; [|done]. simpl in *.
    exists τ, out. rewrite !app_nil_r in *. done.
  - destruct props_rest as [|[k v] ps]; [done|].
    destruct Hin as [[Hk Hv] Hps]. simpl in Hk, Hv, Ht. subst k'.
    assert (Hnew : σ !! length σ = None) by (by apply lookup_ge_None).
    assert (Halen : length σ < length τ) by (by eapply lookup_lt_Some).
    assert (Hfresh : k ∉ out.*1).
    { rewrite Hkeys. intros Hin. apply list_elem_of_filter in Hin as [_ Hin].
      rewrite fmap_app in Hnd. apply NoDup_app in Hnd as (_ & Hdisj & _).
      apply (Hdisj _ Hin). simpl. left. }
    assert (Hget : getProp (props_done ++ (k, v) :: ps) k = Some v).
    { rewrite getProp_app_notin; [simpl; by rewrite decide_True|].
      rewrite fmap_app in Hnd. apply NoDup_app in Hnd as (_ & Hdisj & _).
      intros Hin. apply (Hdisj _ Hin). simpl. left. }
    destruct (isProtoKey k) eqn:Hproto.
    + (* the assignment to [__proto__] adds no property *)
      assert (Hk : isSensitive k = false).
      { apply bool_decide_eq_true in Hproto. by subst k. }
      destruct (Ht τ v (represents_preserved _ _ _ _ _ Hp Hv))
        as (τ1 & r & Hrun & Hp1 & Hr).
      assert (Hstep : forInStep (sanitizeLogObjectH n) l (length σ) τ k = Some τ1).
      { unfold forInStep. rewrite (Hp _ _ Hl), Hget, Hk, Hrun. simpl.
        unfold assignProp. by rewrite Hproto. }
      destruct (IH (tps_done ++ [(k, t)]) (props_done ++ [(k, v)]) ps out τ1)
        as (τ' & out' & Hloop & Hp' & Ha' & Hkeys' & Hall').
      * by rewrite <- app_assoc.
      * by rewrite <- app_assoc.
      * by eapply preserved_trans.
      * by apply Hp1.
      * rewrite fmap_app, filter_app. simpl.
        rewrite filter_cons_False, filter_nil, app_nil_r; [done|].
        apply bool_decide_eq_true in Hproto. by intros ?.
      * done.
      * rewrite assignedProps_app, assignedProps_cons, Hproto, app_nil_r.
        eapply all2_impl; [|exact Hout]. intros x y [Hxy Hrep].
        split; [done|]. by eapply represents_preserved.
      * exists τ', out'. split; [|split; [done|split; [done|split]]].
        -- simpl. by rewrite Hstep.
        -- by rewrite <- app_assoc in Hkeys'.
        -- by rewrite <- app_assoc in Hall'.
    + assert (∃ τ1 r,
                forInStep (sanitizeLogObjectH n) l (length σ) τ k
                  = Some (<[length σ := HObject (out ++ [(k, r)])]> τ1) ∧
                preserved τ τ1 ∧
                represents (allocatedFrom (length τ)) τ1
                  (if isSensitive k then JString REDACTED_PLACEHOLDER
                   else sanitizeLogObject t) r)
        as (τ1 & r & Hstep & Hp1 & Hr).
      { unfold forInStep. rewrite (Hp _ _ Hl), Hget.
        destruct (isSensitive k).
        - exists τ, (HString REDACTED_PLACEHOLDER).
          split; [|split; [apply preserved_refl | done]].
          unfold assignProp. by rewrite Hproto, Ha, setProp_notin.
        - destruct (Ht τ v (represents_preserved _ _ _ _ _ Hp Hv))
            as (τ1 & r & Hrun & Hp1 & Hr).
          exists τ1, r. split; [|done].
          rewrite Hrun. simpl. unfold assignProp.
          by rewrite Hproto, (Hp1 _ _ Ha), setProp_notin. }
      destruct (IH (tps_done ++ [(k, t)]) (props_done ++ [(k, v)]) ps (out ++ [(k, r)])
                  (<[length σ := HObject (out ++ [(k, r)])]> τ1))
        as (τ' & out' & Hloop & Hp' & Ha' & Hkeys' & Hall').
      * by rewrite <- app_assoc.
      * by rewrite <- app_assoc.
      * apply preserved_insert_new; [|done]. by eapply preserved_trans.
      * apply list_lookup_insert_eq. by eapply lookup_lt_Some, Hp1.
      * rewrite !fmap_app, filter_app. simpl.
        rewrite filter_cons_True, filter_nil, Hkeys; [done|].
        apply bool_decide_eq_false in Hproto. done.
      * done.
      * rewrite assignedProps_app, assignedProps_cons, Hproto. apply all2_app.
        -- eapply all2_impl; [|exact Hout]. intros x y [Hxy Hrep].
           split; [done|]. by apply (represents_kept_by_store τ).
        -- simpl. split; [|done]. split; [done|].
           by apply (represents_after_store τ).
      * exists τ', out'. split; [|split; [done|split; [done|split]]].
        -- simpl. by rewrite Hstep.
        -- by rewrite <- app_assoc in Hkeys'.
        -- by rewrite <- app_assoc in Hall'.
Qed.

End Loops.

(** On a heap value that is a data tree, a run of the redactor with fuel
    above the depth of the tree finishes, changes no existing cell, and
    returns the redacted tree in cells of its own. *)
Lemma sanitizeLogObjectH_runs (t : JsValue) :
  ∀ (fuel : nat) (σ : Heap) (v : HeapValue),
    depth t < fuel → represents anywhere σ t v → sanitizesTo fuel σ v t.
Proof.
  induction t as [| | | | |ts IH|tps IH] using JsValue_ind;
    intros [|fuel'] σ v Hfuel Hrep; try lia;
    destruct v as [| | | | |l]; simpl in Hrep; try done;
    try (unfold sanitizesTo; eexists; eexists;
         split; [reflexivity|]; split; [apply preserved_refl | done]).
  - destruct Hrep as (_ & elems & Hl & Hall).
    assert (Hnew : σ !! length σ = None) by (by apply lookup_ge_None).
    destruct (mapLoop_runs fuel' σ l ts) with
      (ts_done := @nil JsValue) (elems_done := @nil HeapValue) (elems_rest := elems)
      (rs := @nil HeapValue)
      (τ := σ ++ [HArray (replicate (length elems) HUndefined)])
      as (τ' & rs' & Hloop & Hp' & Ha' & Hall'); try done.
    + apply depth_array_elems in Hfuel.
      eapply Forall_impl; [apply Forall_and; split; [exact IH | exact Hfuel]|].
      simpl. intros t [Ht Hd] τ v. by apply Ht.
    + apply (preserved_alloc σ).
    + by apply list_lookup_middle.
    + exists τ', (HRef (length σ)). split; [|split; [done|]].
      * simpl. rewrite Hl. simpl in Hloop |- *. by rewrite Hloop.
      * simpl. split; [unfold allocatedFrom; lia|].
        exists rs'. split; [done|].
        eapply all2_impl; [|exact Hall']. intros x y.
        apply represents_transfer. unfold allocatedFrom.
        intros l' c Hl' Hc. split; [lia | done].
  - destruct Hrep as (_ & props & Hl & Hnd & Hall).
    assert (Hnew : σ !! length σ = None) by (by apply lookup_ge_None).
    destruct (forInLoop_runs fuel' σ l tps) with
      (tps_done := @nil (string * JsValue))
      (props_done := @nil (string * HeapValue)) (props_rest := props)
      (out := @nil (string * HeapValue))
      (τ := σ ++ [HObject []])
      as (τ' & out' & Hloop & Hp' & Ha' & Hkeys' & Hall'); try done.
    + apply depth_object_props in Hfuel.
      eapply Forall_impl; [apply Forall_and; split; [exact IH | exact Hfuel]|].
      simpl. intros tp [Ht Hd] τ v. by apply Ht.
    + apply (preserved_alloc σ).
    + by apply list_lookup_middle.
    + exists τ', (HRef (length σ)). split; [|split; [done|]].
      * simpl. rewrite Hl. simpl in Hloop |- *. by rewrite Hloop.
      * simpl. split; [unfold allocatedFrom; lia|].
        exists out'. split; [done|].
        split; [rewrite Hkeys'; by apply NoDup_filter|].
        eapply all2_impl; [|exact Hall']. intros x y [Hxy Hr].
        split; [done|]. revert Hr.
        apply represents_transfer. unfold allocatedFrom.
        intros l' c Hl' Hc. split; [lia | done].
Qed.

(** C9: [sanitizeLogObject] does not mutate its argument. A run that
    returns has left every cell of the heap it started from unchanged,
    so every object, array and field reachable from the argument is as it
    was; and on an argument that is a data tree the run does return (the
    depth of the tree bounds the recursion), the argument is still that
    tree, and the redacted result is built from newly allocated cells
    only. *)
Theorem sanitizeLogObject_leaves_input (fuel : nat) (σ : Heap) (obj : HeapValue) :
  (∀ σ' r, sanitizeLogObjectH fuel σ obj = Some (σ', r) → preserved σ σ') ∧
  (∀ t, represents anywhere σ t obj → depth t < fuel →
     ∃ σ' r,
       sanitizeLogObjectH fuel σ obj = Some (σ', r) ∧
       preserved σ σ' ∧
       represents anywhere σ' t obj ∧
       represents (allocatedFrom (length σ)) σ' (sanitizeLogObject t) r).
Proof.
  split.
  - intros σ' r. apply sanitizeLogObjectH_preserved.
  - intros t Hrep Hfuel.
    destruct (sanitizeLogObjectH_runs t fuel σ obj Hfuel Hrep)
      as (σ' & r & Hrun & Hp & Hr).
    exists σ', r. repeat split; try done.
    by eapply represents_preserved.
Qed.

Lemma sanitizeLogObject_leaves_input_witness :
  preserved
    [HObject [("branch_key", HString "k"); ("nested", HRef 1)];
     HObject [("auth_token", HString "t"); ("ok", HString "v")]]
    [HObject [("branch_key", HString "k"); ("nested", HRef 1)];
     HObject [("auth_token", HString "t"); ("ok", HString "v")];
     HObject [("branch_key", HString "[REDACTED]"); ("nested", HRef 3)];
     HObject [("auth_token", HString "[REDACTED]"); ("ok", HString "v")]] ∧
  ∃ σ' r,
    sanitizeLogObjectH 3
      [HObject [("branch_key", HString "k"); ("nested", HRef 1)];
       HObject [("auth_token", HString "t"); ("ok", HString "v")]]
      (HRef 0) = Some (σ', r) ∧
    preserved
      [HObject [("branch_key", HString "k"); ("nested", HRef 1)];
       HObject [("auth_token", HString "t"); ("ok", HString "v")]] σ' ∧
    represents anywhere σ'
      (JObject [("branch_key", JString "k");
                ("nested", JObject [("auth_token", JString "t");
                                    ("ok", JString "v")])])
      (HRef 0) ∧
    represents (allocatedFrom 2) σ'
      (sanitizeLogObject
         (JObject [("branch_key", JString "k");
                   ("nested", JObject [("auth_token", JString "t");
                                       ("ok", JString "v")])]))
      r.
Proof.
  destruct (sanitizeLogObject_leaves_input 3
              [HObject [("branch_key", HString "k"); ("nested", HRef 1)];
               HObject [("auth_token", HString "t"); ("ok", HString "v")]]
              (HRef 0)) as [Hframe Hruns].
  split.
  - apply (Hframe _ (HRef 2)). reflexivity.
  - apply Hruns.
    + simpl. split; [exact I|]. eexists. split; [reflexivity|].
      split; [apply (bool_decide_unpack _); vm_compute; exact I|].
      simpl. repeat split.
      eexists. split; [reflexivity|].
      split; [apply (bool_decide_unpack _); vm_compute; exact I|].
      simpl. repeat split.
    + simpl. lia.
Defined.

(* ================================================================== *)
(** * Part III: further properties of the helper layer *)
(* ================================================================== *)

(** ** The base URL and the configuration at startup *)

Lemma orDefault_nonempty (a : option string) (b : string) :
  b ≠ "" → orDefault a b ≠ "".
Proof.
  intros Hb. unfold orDefault.
  destruct (truthy a) as [s|] eqn:Ha; [|done].
  by apply truthy_Some_inv in Ha as [_ Hs].
Qed.

(** X1: the base URL is ["https://"] followed by a host that is never
    empty: [config.branch_url] when that is a non-empty string, and
    [api2.branch.io] when it is absent or empty. The copy of the function
    inside [registerAppTools] returns the same URL. *)
Theorem getBranchBaseUrl_host (config : BranchMcpConfig.t) :
  ∃ host,
    getBranchBaseUrl config = "https://" +:+ host ∧
    host ≠ "" ∧
    (blank (BranchMcpConfig.branch_url config) → host = "api2.branch.io") ∧
    (∀ u, BranchMcpConfig.branch_url config = Some u → u ≠ "" → host = u) ∧
    registerAppTools_getBranchBaseUrl config = getBranchBaseUrl config.
Proof.
  exists (orDefault (BranchMcpConfig.branch_url config) "api2.branch.io").
  split; [done|]. split; [by apply orDefault_nonempty|].
  split; [|split; [|done]].
  - intros Hb. unfold orDefault. by rewrite (truthy_blank _ Hb).
  - intros u Hu Hne. unfold orDefault. by rewrite Hu, (truthy_Some _ Hne).
Qed.

Lemma getBranchBaseUrl_host_witness :
  getBranchBaseUrl (BranchMcpConfig.mk None (Some "") None None None None None)
    = "https://api2.branch.io" ∧
  getBranchBaseUrl
    (BranchMcpConfig.mk None (Some "custom.api.branch.io") None None None None None)
    = "https://custom.api.branch.io".
Proof.
  split.
  - destruct (getBranchBaseUrl_host
                (BranchMcpConfig.mk None (Some "") None None None None None))
      as (host & -> & _ & H & _).
    rewrite H; [reflexivity | right; reflexivity].
  - destruct (getBranchBaseUrl_host
                (BranchMcpConfig.mk None (Some "custom.api.branch.io")
                   None None None None None))
      as (host & -> & _ & _ & H & _).
    rewrite (H "custom.api.branch.io"); [reflexivity | reflexivity | discriminate].
Defined.

(** X2: with the configuration [index.ts] builds from the environment,
    no resolved credential is ever absent. [branch_key], [branch_secret],
    [app_id] and [organization_id] resolve to the caller's value, else to
    [BRANCH_KEY], [BRANCH_SECRET], [BRANCH_APP_ID] and
    [BRANCH_ORGANIZATION_ID], else to the empty string. The configuration
    has no [api_key], so both token slots hold the caller's [api_key],
    else the caller's [auth_token], else [USER_AUTH_TOKEN], else the empty
    string; and the base URL uses [BRANCH_URL] unless it is unset or
    empty. *)
Theorem startupConfig_resolution (env : gmap string string) (P : AuthParams.t) :
  ResolvedAuth.branch_key (getResolvedAuth P (startupConfig env))
    = Some (default (default "" (env !! "BRANCH_KEY")) (AuthParams.branch_key P)) ∧
  ResolvedAuth.branch_secret (getResolvedAuth P (startupConfig env))
    = Some (default (default "" (env !! "BRANCH_SECRET"))
              (AuthParams.branch_secret P)) ∧
  ResolvedAuth.app_id (getResolvedAuth P (startupConfig env))
    = Some (default (default "" (env !! "BRANCH_APP_ID")) (AuthParams.app_id P)) ∧
  ResolvedAuth.organization_id (getResolvedAuth P (startupConfig env))
    = Some (default (default "" (env !! "BRANCH_ORGANIZATION_ID"))
              (AuthParams.organization_id P)) ∧
  ResolvedAuth.api_key (getResolvedAuth P (startupConfig env))
    = Some (default (default (default "" (env !! "USER_AUTH_TOKEN"))
                       (AuthParams.auth_token P))
              (AuthParams.api_key P)) ∧
  ResolvedAuth.auth_token (getResolvedAuth P (startupConfig env))
    = ResolvedAuth.api_key (getResolvedAuth P (startupConfig env)) ∧
  (∀ F, is_Some (resolvedField (getResolvedAuth P (startupConfig env)) F)) ∧
  getBranchBaseUrl (startupConfig env)
    = "https://" +:+ orDefault (env !! "BRANCH_URL") "api2.branch.io".
Proof.
  destruct P as [pa pk ps pi po pt].
  repeat match goal with |- _ ∧ _ => split end.
  - simpl. by destruct pk.
  - simpl. by destruct ps.
  - simpl. by destruct pi.
  - simpl. by destruct po.
  - simpl. by destruct pa, pt.
  - done.
  - intros F. destruct F; simpl; by destruct pa, pk, ps, pi, po, pt.
  - unfold getBranchBaseUrl, orDefault. simpl.
    destruct (truthy (env !! "BRANCH_URL")) as [u|] eqn:Hu; [|done].
    apply truthy_Some_inv in Hu as [_ Hne]. by rewrite (truthy_Some _ Hne).
Qed.

(** ** The log redactor: more properties *)

(** X3: the redactor is idempotent: redacting a redacted value changes
    nothing. *)
Theorem sanitizeLogObject_idempotent (obj : JsValue) :
  sanitizeLogObject (sanitizeLogObject obj) = sanitizeLogObject obj.
Proof.
  induction obj as [| | | | |elems IH|props IH] using JsValue_ind; try done.
  - simpl. f_equal. rewrite <- list_fmap_compose.
    apply Forall_fmap_ext_1. eapply Forall_impl; [exact IH|]. done.
  - simpl. f_equal. rewrite assignedProps_twice.
    apply assignedProps_ext. eapply Forall_impl; [exact IH|].
    intros [k v] Hv. simpl in *.
    destruct (isSensitive k); [done | exact Hv].
Qed.





(** X5: the sensitive keys are exactly the names of the six credential
    fields, so a credential found under its field name in a log record,
    at a position reached through no sensitive key and no key
    [__proto__], comes out as the placeholder; [branch_url] is not a
    sensitive key. *)
Theorem credential_names_sensitive :
  (∀ key, isSensitive key = true ↔ ∃ F, key = fieldName F) ∧
  (∀ (obj : JsValue) (path : list PathStep) (F : CredField) (x : JsValue),
     cleanPath path = true →
     valueAt obj (path ++ [AtKey (fieldName F)]) = Some x →
     valueAt (sanitizeLogObject obj) (path ++ [AtKey (fieldName F)])
       = Some (JString "[REDACTED]")) ∧
  isSensitive "branch_url" = false.
Proof.
  assert (Hnames : ∀ F, isSensitive (fieldName F) = true) by (by intros []).
  split; [|split; [|done]].
  - intros key. split.
    + intros Hk. apply bool_decide_eq_true in Hk. unfold SENSITIVE_KEYS in Hk.
      repeat (apply elem_of_cons in Hk as [->|Hk]);
        [by exists F_branch_secret | by exists F_branch_key | by exists F_api_key
        | by exists F_auth_token | by exists F_app_id | by exists F_organization_id |].
      by apply elem_of_nil in Hk.
    + intros [F ->]. apply Hnames.
  - intros obj path F x Hc. by apply valueAt_sanitize_sensitive.
Qed.

Lemma credential_names_sensitive_witness :
  valueAt
    (sanitizeLogObject
       (JObject [("params", JObject [("url", JString "https://x.app.link/a");
                                     ("auth_token", JString "tok")])]))
    [AtKey "params"; AtKey "auth_token"] = Some (JString "[REDACTED]").
Proof.
  destruct credential_names_sensitive as (_ & H & _).
  apply (H _ [AtKey "params"] F_auth_token (JString "tok")); reflexivity.
Defined.

(* ================================================================== *)
(** * Part IV: properties of the tool handlers *)
(* ================================================================== *)

(** Case analysis along a handler: the checks of the credentials, the
    validation steps and the results of the requests. *)
Local Ltac handler_cases :=
  repeat match goal with
    | |- context [match truthy ?x with _ => _ end] =>
        let E := fresh "Htruthy" in destruct (truthy x) eqn:E
    | |- context [match firstUntitledMarketingLink ?x with _ => _ end] =>
        let E := fresh "Hlinks" in destruct (firstUntitledMarketingLink x) eqn:E
    | |- context [match appIdOrOrgIdValidator_parse ?x with _ => _ end] =>
        let E := fresh "Hparse" in destruct (appIdOrOrgIdValidator_parse x) eqn:E
    | |- context [if ?b then _ else _] =>
        let E := fresh "Hcheck" in destruct b eqn:E
    | |- context [await _ _ _ _] => unfold await
    | |- context [match ?http ?r with HttpOk _ => _ | HttpThrows _ => _ end] =>
        let E := fresh "Hhttp" in destruct (http r) eqn:E
    end.

(** A lookup in a map written as a list of insertions. *)
Local Ltac map_lookup :=
  repeat (rewrite lookup_insert_ne by discriminate);
  first [by apply lookup_insert_eq | by apply lookup_singleton_eq
        | by apply lookup_singleton_ne | by apply lookup_empty ].

(** Case analysis on the result of the request the run waits for. *)
Local Ltac destruct_http :=
  match goal with
  | |- context [match ?http ?r with HttpOk _ => _ | HttpThrows _ => _ end] =>
      destruct (http r)
  end.

Local Ltac unfold_handlers :=
  unfold runTool, branch_create_quick_link, branch_update_quick_link,
    branch_bulk_create_quick_links, branch_create_deep_link,
    branch_bulk_create_deep_links, branch_read_deep_link,
    branch_update_deep_link, branch_delete_deep_link, branch_query,
    branch_create_custom_export.

(** ** All handlers *)

(** X6: every request one of the ten handlers modelled here makes
    carries the header [User-Agent: Branch-MCP-Server/1.0.0] and goes to
    a URL that starts with the base URL of the configuration. *)
Theorem requests_identified (tool : Tool) (config : BranchMcpConfig.t)
    (http : Request.t → HttpResult) (stringify : nat → JsValue → string)
    (params : JsObject) :
  Forall (λ request,
            Request.headers request !! "User-Agent" = Some "Branch-MCP-Server/1.0.0" ∧
            ∃ path, Request.url request = getBranchBaseUrl config +:+ path)
    (requests (runTool tool config http stringify params)).
Proof.
  destruct tool; unfold_handlers; cbv zeta; handler_cases;
    cbn [requests outcome finished];
    repeat (apply Forall_cons; split;
            [split; [cbn [Request.headers]; map_lookup
                    | cbn [Request.url]; by eexists]|]);
    apply Forall_nil_2.
Qed.

(** X7: each of the ten handlers modelled here throws a plain [Error] or
    a validation error only before it has made any request: a failed
    precondition never reaches the network. When a request it makes
    throws, the handler ends by throwing a [BranchApiError]. None of them
    makes more than two requests. *)
Theorem failures_classified (tool : Tool) (config : BranchMcpConfig.t)
    (http : Request.t → HttpResult) (stringify : nat → JsValue → string)
    (params : JsObject) :
  let run := runTool tool config http stringify params in
  (∀ message, outcome run = ThrowsError message → requests run = []) ∧
  (∀ issue, outcome run = ThrowsZodError issue → requests run = []) ∧
  (∀ request error,
     request ∈ requests run → http request = HttpThrows error →
     ∃ e, outcome run = ThrowsApiError e) ∧
  length (requests run) ≤ 2.
Proof.
  intros run. assert (Hrun : run = runTool tool config http stringify params)
    by reflexivity.
  clearbody run. revert run Hrun.
  destruct tool; unfold_handlers; cbv zeta; handler_cases;
    intros run ->; cbn [requests outcome finished length];
    (split; [try discriminate; reflexivity|]);
    (split; [try discriminate; reflexivity|]);
    (split; [|simpl; lia]);
    intros rq err Hin Hthrow; try (eexists; reflexivity);
    repeat (apply elem_of_cons in Hin as [->|Hin]; [congruence|]);
    by apply elem_of_nil in Hin.
Qed.

Lemma failures_classified_witness :
  requests
    (runTool T_create_quick_link BranchMcpConfig.empty
       (λ _, HttpOk JNull) (λ _ _, "") ∅) = [] ∧
  ∃ e,
    outcome
      (runTool T_delete_deep_link
         (BranchMcpConfig.mk None None None None (Some "123") None (Some "tok"))
         (λ _, HttpThrows (ThrownAxiosError "Network Error" None)) (λ _ _, "")
         {[ "url" := JString "https://x.app.link/a" ]})
    = ThrowsApiError e.
Proof.
  split.
  - destruct (failures_classified T_create_quick_link BranchMcpConfig.empty
                (λ _, HttpOk JNull) (λ _ _, "") ∅) as (H & _).
    eapply H. vm_compute. reflexivity.
  - destruct (failures_classified T_delete_deep_link
                (BranchMcpConfig.mk None None None None (Some "123") None (Some "tok"))
                (λ _, HttpThrows (ThrownAxiosError "Network Error" None)) (λ _ _, "")
                {[ "url" := JString "https://x.app.link/a" ]}) as (_ & _ & H & _).
    eapply H; [|reflexivity]. vm_compute. left.
Defined.

Lemma resolved_branch_key_empty (config : BranchMcpConfig.t) (params : JsObject) :
  params !! "branch_key" = Some (JString "") →
  truthy (ResolvedAuth.branch_key (getResolvedAuth (authParamsOf params) config)) = None ∧
  truthy (stringField params "branch_key" ?? BranchMcpConfig.branch_key config) = None.
Proof. intros Hk. unfold stringField. simpl. unfold stringField. by rewrite Hk. Qed.

(** X8: an empty string passed as [branch_key] in the tool parameters
    blocks the fallback to the configured key: whatever the configuration
    holds, each of the eight handlers modelled here that need a Branch
    key makes no request and does not return. *)
Theorem empty_branch_key_blocks_fallback (tool : Tool) (config : BranchMcpConfig.t)
    (http : Request.t → HttpResult) (stringify : nat → JsValue → string)
    (params : JsObject) :
  needsBranchKey tool = true →
  params !! "branch_key" = Some (JString "") →
  requests (runTool tool config http stringify params) = [] ∧
  ∀ value, outcome (runTool tool config http stringify params) ≠ Returns value.
Proof.
  intros Htool Hk.
  destruct (resolved_branch_key_empty config params Hk) as [Hres Hdirect].
  destruct tool; try discriminate Htool; unfold_handlers; cbv zeta;
    rewrite ?Hres, ?Hdirect; by split.
Qed.

Lemma empty_branch_key_blocks_fallback_witness :
  requests
    (runTool T_bulk_create_quick_links
       (BranchMcpConfig.mk (Some "key_live_1") None (Some "secret") None None None None)
       (λ _, HttpOk JNull) (λ _ _, "")
       {[ "branch_key" := JString ""; "links" := JArray [] ]}) = [] ∧
  ∀ value,
    outcome
      (runTool T_bulk_create_quick_links
         (BranchMcpConfig.mk (Some "key_live_1") None (Some "secret") None None None None)
         (λ _, HttpOk JNull) (λ _ _, "")
         {[ "branch_key" := JString ""; "links" := JArray [] ]}) ≠ Returns value.
Proof.
  apply (empty_branch_key_blocks_fallback T_bulk_create_quick_links
           (BranchMcpConfig.mk (Some "key_live_1") None (Some "secret") None None None None)
           (λ _, HttpOk JNull) (λ _ _, "")
           {[ "branch_key" := JString ""; "links" := JArray [] ]}).
  - reflexivity.
  - vm_compute. reflexivity.
Defined.

(** ** The Quick Link handlers *)

(** X9: every request of [branch_create_quick_link] is a POST whose body
    carries the resolved, non-empty key and secret, and a numeric [type]:
    [2] when the parameters ask for [MARKETING], in which case
    [data.$marketing_title] is truthy, and [0] otherwise; every other
    parameter is passed on unchanged. *)
Theorem create_quick_link_request (config : BranchMcpConfig.t)
    (http : Request.t → HttpResult) (params : JsObject) :
  Forall (λ request,
            Request.method request = POST ∧
            ∃ body key secret,
              Request.body request = ObjectBody body ∧
              ResolvedAuth.branch_key (getResolvedAuth (authParamsOf params) config)
                = Some key ∧ key ≠ "" ∧
              ResolvedAuth.branch_secret (getResolvedAuth (authParamsOf params) config)
                = Some secret ∧ secret ≠ "" ∧
              body !! "branch_key" = Some (JString key) ∧
              body !! "branch_secret" = Some (JString secret) ∧
              body !! "type"
                = Some (JNumber (if isMarketing (member params "type") then 2 else 0)) ∧
              (isMarketing (member params "type") = true →
               jsTruthy (optMember (member params "data") "$marketing_title") = true) ∧
              (∀ k, k ≠ "type" → k ≠ "branch_key" → k ≠ "branch_secret" →
                    body !! k = params !! k))
    (requests (branch_create_quick_link config http params)).
Proof.
  unfold branch_create_quick_link. cbv zeta.
  destruct (truthy (ResolvedAuth.branch_key _)) as [key|] eqn:Hkey;
    [|by apply Forall_nil_2].
  destruct (truthy (ResolvedAuth.branch_secret _)) as [secret|] eqn:Hsecret;
    [|by apply Forall_nil_2].
  apply truthy_Some_inv in Hkey as [Hkey Hkne].
  apply truthy_Some_inv in Hsecret as [Hsecret Hsne].
  destruct (isMarketing (member params "type")
            && negb (jsTruthy (optMember (member params "data") "$marketing_title")))
    eqn:Hguard; [by apply Forall_nil_2|].
  assert (Hrun : ∀ rest, requests (mkToolRun [] rest) = []) by done.
  unfold await. cbn [requests].
  replace (requests match http _ with HttpOk data => _ | HttpThrows error => _ end)
    with (@nil Request.t) by (by destruct (http _)).
  apply Forall_cons. split; [|by apply Forall_nil_2].
  split; [done|]. eexists _, key, secret. cbn [Request.body].
  repeat split; try done; try map_lookup.
  - intros Hm. rewrite Hm in Hguard. simpl in Hguard.
    by apply negb_false_iff in Hguard.
  - intros k Hk1 Hk2 Hk3.
    by rewrite !lookup_insert_ne, lookup_delete_ne by done.
Qed.

Lemma lookup_deleteKeys (keys : list string) (payload : JsObject) (k : string) :
  deleteKeys keys payload !! k = if decide (k ∈ keys) then None else payload !! k.
Proof.
  unfold deleteKeys. revert payload.
  induction keys as [|key keys IH]; intros payload; cbn [foldl].
  - by rewrite decide_False by apply not_elem_of_nil.
  - rewrite IH. destruct (decide (k = key)) as [->|Hne].
    + rewrite (decide_True (P := key ∈ key :: keys)) by apply list_elem_of_here.
      case_decide; [done | apply lookup_delete_eq].
    + rewrite lookup_delete_ne by done.
      destruct (decide (k ∈ keys)) as [Hin|Hnin].
      * by rewrite decide_True by (by apply list_elem_of_further).
      * rewrite decide_False; [done|]. by intros [?|?]%elem_of_cons.
Qed.

Lemma prefix_spec (part s : string) :
  String.prefix part s = true ↔ ∃ post, s = part +:+ post.
Proof.
  revert s. induction part as [|c part IH]; intros [|c' s]; simpl.
  - split; [by exists "" | done].
  - split; [by exists (String c' s) | done].
  - split; [done | by intros [post Hp]].
  - destruct (Ascii.ascii_dec c c') as [->|Hne].
    + rewrite IH. split; intros [post Hp]; exists post.
      * by subst s.
      * by injection Hp.
    + split; [done|]. intros [post Hp]. by injection Hp.
Qed.

Lemma includes_spec (s part : string) :
  includes s part = true ↔ ∃ pre post, s = pre +:+ part +:+ post.
Proof.
  induction s as [|c s IH]; cbn [includes].
  - rewrite orb_false_r, prefix_spec. split.
    + intros [post Hp]. by exists "", post.
    + intros (pre & post & Hp). destruct pre; [by exists post|done].
  - rewrite orb_true_iff, prefix_spec, IH. split.
    + intros [[post Hp]|(pre & post & Hp)].
      * by exists "", post.
      * exists (String c pre), post. simpl. by rewrite Hp.
    + intros (pre & post & Hp). destruct pre as [|c' pre]; simpl in Hp.
      * left. by exists post.
      * right. exists pre, post. by injection Hp.
Qed.

(** X10: the body [branch_update_quick_link] writes back never holds one
    of the nine immutable fields; it always holds the link URL and the
    resolved, non-empty key and secret; and every other field is the
    caller's [link_data] value when there is one, else the value just
    read from the server: the answer to the GET of [/v1/url] with the
    link URL and the resolved key as its query. *)
Theorem update_quick_link_payload (config : BranchMcpConfig.t)
    (http : Request.t → HttpResult) (stringify : nat → JsValue → string)
    (params : JsObject) :
  Forall (λ request,
            Request.method request = PUT →
            ∃ payload existing key secret,
              Request.body request = ObjectBody payload ∧
              ResolvedAuth.branch_key (getResolvedAuth (authParamsOf params) config)
                = Some key ∧ key ≠ "" ∧
              ResolvedAuth.branch_secret (getResolvedAuth (authParamsOf params) config)
                = Some secret ∧ secret ≠ "" ∧
              http (Request.mk GET (getBranchBaseUrl config +:+ "/v1/url") NoBody
                      {[ "url" := JString (requiredString params "url");
                         "branch_key" := JString key ]}
                      {[ "Accept" := "application/json";
                         "User-Agent" := MCP_USER_AGENT ]})
                = HttpOk existing ∧
              (∀ k, k ∈ immutableKeys → payload !! k = None) ∧
              payload !! "url" = Some (JString (requiredString params "url")) ∧
              payload !! "branch_key" = Some (JString key) ∧
              payload !! "branch_secret" = Some (JString secret) ∧
              (∀ k, k ∉ immutableKeys → k ∉ ["branch_key"; "branch_secret"; "url"] →
                    payload !! k
                    = match ownProps (member params "link_data") !! k with
                      | Some v => Some v
                      | None => ownProps existing !! k
                      end))
    (requests (branch_update_quick_link config http stringify params)).
Proof.
  unfold branch_update_quick_link. cbv zeta.
  destruct (truthy (ResolvedAuth.branch_key _)) as [key|] eqn:Hkey;
    [|by apply Forall_nil_2].
  destruct (truthy (ResolvedAuth.branch_secret _)) as [secret|] eqn:Hsecret;
    [|by apply Forall_nil_2].
  apply truthy_Some_inv in Hkey as [Hkey Hkne].
  apply truthy_Some_inv in Hsecret as [Hsecret Hsne].
  destruct (includes _ _ || includes _ _); [by apply Forall_nil_2|].
  unfold await at 1. destruct (http _) as [existing|err] eqn:Hget;
    cbn [requests finished];
    [|apply Forall_cons; split; [done | apply Forall_nil_2]].
  unfold await. destruct_http; cbn [requests finished];
    (apply Forall_cons; split; [intros Hm; discriminate Hm|]);
    (apply Forall_cons; split; [|by apply Forall_nil_2]);
    intros _; eexists _, existing, key, secret;
    cbn [Request.body];
    (split; [reflexivity|]); (split; [exact Hkey|]); (split; [exact Hkne|]);
    (split; [exact Hsecret|]); (split; [exact Hsne|]); (split; [exact Hget|]);
    (split; [|split; [|split; [|split]]]).
  all: try (intros k Hk; rewrite lookup_deleteKeys; by rewrite decide_True).
  all: try (rewrite lookup_deleteKeys, decide_False; [map_lookup|];
            unfold immutableKeys; by apply (bool_decide_unpack _)).
  all: intros k Hk Hk'; rewrite lookup_deleteKeys, decide_False by done;
    rewrite !lookup_insert_ne by (intros <-; apply Hk'; set_solver);
    rewrite lookup_union;
    by destruct (ownProps (member params "link_data") !! k),
                (ownProps existing !! k).
Qed.

(** X11: [branch_update_quick_link] makes no request for a link URL
    that contains [bnc.lt/c/] or [bnc.lt/d/]; otherwise it reads before it
    writes: its requests are none, one GET that failed, or a GET that
    succeeded followed by one PUT. *)
Theorem update_quick_link_sequence (config : BranchMcpConfig.t)
    (http : Request.t → HttpResult) (stringify : nat → JsValue → string)
    (params : JsObject) :
  let run := branch_update_quick_link config http stringify params in
  (∀ pre post marker,
     marker = "bnc.lt/c/" ∨ marker = "bnc.lt/d/" →
     requiredString params "url" = pre +:+ marker +:+ post →
     requests run = []) ∧
  (requests run = [] ∨
   (∃ get error, requests run = [get] ∧ Request.method get = GET ∧
                 http get = HttpThrows error) ∨
   (∃ get put existing, requests run = [get; put] ∧ Request.method get = GET ∧
                        Request.method put = PUT ∧ http get = HttpOk existing)).
Proof.
  intros run.
  assert (Hrun : run = branch_update_quick_link config http stringify params)
    by reflexivity.
  clearbody run. revert run Hrun.
  unfold branch_update_quick_link. cbv zeta.
  destruct (truthy (ResolvedAuth.branch_key _)) as [key|];
    [|intros run ->; split; [done | by left]].
  destruct (truthy (ResolvedAuth.branch_secret _)) as [secret|];
    [|intros run ->; split; [done | by left]].
  destruct (includes _ _ || includes _ _) eqn:Hinc;
    [intros run ->; split; [done | by left]|].
  assert (Hfree : ∀ pre post marker,
            marker = "bnc.lt/c/" ∨ marker = "bnc.lt/d/" →
            requiredString params "url" ≠ pre +:+ marker +:+ post).
  { intros pre post marker Hmarker Hurl.
    apply orb_false_iff in Hinc as [Hc Hd].
    assert (includes (requiredString params "url") marker = true) as Hyes
      by (apply includes_spec; eauto).
    destruct Hmarker as [-> | ->]; congruence. }
  unfold await.
  match goal with
  | |- context [match http ?get with
                | HttpOk _ => mkToolRun _ _
                | HttpThrows _ => finished _
                end] => destruct (http get) as [existing|err] eqn:Hget
  end.
  - destruct_http; intros run ->; cbn [requests finished];
      (split; [intros pre post marker Hm Hurl; by destruct (Hfree pre post marker)|]);
      right; right; eexists _, _, existing;
      (split; [reflexivity|]); (split; [reflexivity|]);
      (split; [reflexivity|]); exact Hget.
  - intros run ->; cbn [requests finished].
    split; [intros pre post marker Hm Hurl; by destruct (Hfree pre post marker)|].
    right. left. eexists _, err.
    split; [reflexivity|]. split; [reflexivity|]. exact Hget.
Qed.

Lemma update_quick_link_sequence_witness :
  requests
    (branch_update_quick_link
       (BranchMcpConfig.mk (Some "key_live_1") None (Some "secret") None None None None)
       (λ _, HttpOk JNull) (λ _ _, "")
       {[ "url" := JString "https://bnc.lt/c/abc"; "link_data" := JObject [] ]}) = [].
Proof.
  destruct (update_quick_link_sequence
              (BranchMcpConfig.mk (Some "key_live_1") None (Some "secret")
                 None None None None)
              (λ _, HttpOk JNull) (λ _ _, "")
              {[ "url" := JString "https://bnc.lt/c/abc"; "link_data" := JObject [] ]})
    as [H _].
  apply (H "https://" "abc" "bnc.lt/c/"); [by left | vm_compute; reflexivity].
Defined.

Lemma firstUntitledMarketingLink_None (links : list JsValue) :
  firstUntitledMarketingLink links = None →
  Forall (λ link,
            isMarketing (optMember link "type") = true →
            jsTruthy (optMember (optMember link "data") "$marketing_title") = true)
    links.
Proof.
  induction links as [|link links IH]; cbn [firstUntitledMarketingLink];
    [by constructor|].
  destruct (isMarketing (optMember link "type")) eqn:Hm;
    destruct (jsTruthy (optMember (optMember link "data") "$marketing_title"))
      eqn:Ht; cbn [andb negb]; try discriminate;
    intros Hrest; (constructor; [cbn beta; congruence | by apply IH]).
Qed.

Lemma transformLink_lookup (link : JsValue) (k : string) :
  transformLink link !! k
  = if decide (k = "type")
    then (if isMarketing (optMember link "type") then Some (JNumber 2) else None)
    else ownProps link !! k.
Proof.
  unfold transformLink. cbv zeta.
  destruct (isMarketing (optMember link "type")); case_decide as Hk; subst.
  - apply lookup_insert_eq.
  - by rewrite lookup_insert_ne, lookup_delete_ne.
  - apply lookup_delete_eq.
  - by rewrite lookup_delete_ne.
Qed.

(** X12: the body [branch_bulk_create_quick_links] sends is an array
    with one object per link, in order. The object of a [MARKETING] link
    has [type: 2], and such a link has a truthy [data.$marketing_title];
    the object of any other link has no [type] at all; every other field
    of a link is passed on unchanged. *)
Theorem bulk_quick_links_body (config : BranchMcpConfig.t)
    (http : Request.t → HttpResult) (stringify : nat → JsValue → string)
    (params : JsObject) :
  Forall (λ request,
            ∃ items,
              Request.body request = ArrayBody items ∧
              length items = length (requiredArray params "links") ∧
              ∀ i link,
                requiredArray params "links" !! i = Some link →
                ∃ item,
                  items !! i = Some item ∧
                  item !! "type"
                    = (if isMarketing (optMember link "type")
                       then Some (JNumber 2) else None) ∧
                  (isMarketing (optMember link "type") = true →
                   jsTruthy (optMember (optMember link "data") "$marketing_title")
                     = true) ∧
                  (∀ k, k ≠ "type" → item !! k = ownProps link !! k))
    (requests (branch_bulk_create_quick_links config http stringify params)).
Proof.
  unfold branch_bulk_create_quick_links. cbv zeta.
  destruct (truthy (ResolvedAuth.branch_key _)) as [key|];
    [|by apply Forall_nil_2].
  destruct (firstUntitledMarketingLink _) eqn:Hlinks; [by apply Forall_nil_2|].
  apply firstUntitledMarketingLink_None in Hlinks.
  unfold await. destruct_http; cbn [requests finished];
    (apply Forall_cons; split; [|by apply Forall_nil_2]);
    eexists; cbn [Request.body]; (split; [reflexivity|]);
    (split; [by rewrite length_fmap|]);
    intros i link Hi; exists (transformLink link);
    (split; [by rewrite list_lookup_fmap, Hi|]);
    (split; [by rewrite transformLink_lookup, decide_True|]);
    (split; [by apply (proj1 (Forall_lookup _ _) Hlinks i link)|]);
    intros k Hk; by rewrite transformLink_lookup, decide_False.
Qed.

(** ** The Deep Link handlers *)

(** X13: the same missing Branch key is reported in two ways. In
    [branch_create_deep_link] and [branch_read_deep_link] the check stands
    inside [try], so the caller gets a [BranchApiError] with the message
    prefixed by ["Branch API error: "] and no status; the bulk and update
    handlers throw the plain [Error]. None of them makes a request. *)
Theorem missing_key_reports (config : BranchMcpConfig.t)
    (http : Request.t → HttpResult) (stringify : nat → JsValue → string)
    (params : JsObject) :
  blank (stringField params "branch_key" ?? BranchMcpConfig.branch_key config) →
  (∀ tool, tool = T_create_deep_link ∨ tool = T_read_deep_link →
     requests (runTool tool config http stringify params) = [] ∧
     ∃ e, outcome (runTool tool config http stringify params) = ThrowsApiError e ∧
          BranchApiError.message e
            = "Branch API error: Branch Key is not configured. Please provide it in the tool parameters or server configuration." ∧
          BranchApiError.status e = None ∧
          BranchApiError.response e = None) ∧
  (∀ tool,
     tool = T_bulk_create_deep_links ∨ tool = T_update_deep_link ∨
     tool = T_bulk_create_quick_links ∨ tool = T_update_quick_link →
     requests (runTool tool config http stringify params) = [] ∧
     outcome (runTool tool config http stringify params)
       = ThrowsError "Branch Key is not configured. Please provide it in the tool parameters or server configuration.").
Proof.
  intros Hblank. apply truthy_blank in Hblank.
  assert (Hres : truthy (ResolvedAuth.branch_key
                           (getResolvedAuth (authParamsOf params) config)) = None)
    by exact Hblank.
  split.
  - intros tool [-> | ->]; unfold_handlers; cbv zeta; rewrite ?Hblank, ?Hres;
      (split; [reflexivity|]); eexists; by repeat split.
  - intros tool [-> | [-> | [-> | ->]]]; unfold_handlers; cbv zeta;
      rewrite ?Hblank, ?Hres; by split.
Qed.

Lemma missing_key_reports_witness :
  (∃ e,
     outcome (runTool T_create_deep_link BranchMcpConfig.empty
                (λ _, HttpOk JNull) (λ _ _, "")
                {[ "alias" := JString "a" ]}) = ThrowsApiError e ∧
     BranchApiError.status e = None) ∧
  outcome (runTool T_bulk_create_deep_links BranchMcpConfig.empty
             (λ _, HttpOk JNull) (λ _ _, "")
             {[ "alias" := JString "a" ]})
    = ThrowsError "Branch Key is not configured. Please provide it in the tool parameters or server configuration.".
Proof.
  destruct (missing_key_reports BranchMcpConfig.empty
              (λ _, HttpOk JNull) (λ _ _, "") {[ "alias" := JString "a" ]})
    as [Hwrapped Hplain].
  - left. vm_compute. reflexivity.
  - split.
    + destruct (Hwrapped T_create_deep_link) as (_ & e & He & _ & Hs & _);
        [by left|]. by exists e.
    + destruct (Hplain T_bulk_create_deep_links) as [_ H]; [by left|]. exact H.
Defined.

(** X14: every request of [branch_delete_deep_link] is a DELETE without
    body whose [Access-Token] header is the resolved token: the first
    present among the caller's [api_key], the caller's [auth_token], the
    configuration's [api_key] and the configuration's [auth_token], in
    that order; the token and the application id it sends are never
    empty. *)
Theorem delete_deep_link_request (config : BranchMcpConfig.t)
    (http : Request.t → HttpResult) (stringify : nat → JsValue → string)
    (params : JsObject) :
  Forall (λ request,
            Request.method request = DELETE ∧
            Request.body request = NoBody ∧
            ∃ token app_id,
              Request.headers request !! "Access-Token" = Some token ∧
              token ≠ "" ∧
              firstPresent [stringField params "api_key";
                            stringField params "auth_token";
                            BranchMcpConfig.api_key config;
                            BranchMcpConfig.auth_token config] = Some token ∧
              Request.params request !! "app_id" = Some (JString app_id) ∧
              app_id ≠ "" ∧
              stringField params "app_id" ?? BranchMcpConfig.app_id config
                = Some app_id ∧
              Request.params request !! "url" = Some (member params "url"))
    (requests (branch_delete_deep_link config http stringify params)).
Proof.
  unfold branch_delete_deep_link. cbv zeta.
  destruct (truthy (ResolvedAuth.app_id _)) as [app_id|] eqn:Happ;
    [|by apply Forall_nil_2].
  destruct (truthy (ResolvedAuth.auth_token _)) as [token|] eqn:Htoken;
    [|by apply Forall_nil_2].
  apply truthy_Some_inv in Happ as [Happ Hane].
  apply truthy_Some_inv in Htoken as [Htoken Htne].
  assert (Hfirst : firstPresent [stringField params "api_key";
                                 stringField params "auth_token";
                                 BranchMcpConfig.api_key config;
                                 BranchMcpConfig.auth_token config] = Some token).
  { assert (Hchain : ∀ a b c d : option string,
              firstPresent [a; b; c; d] = a ?? b ?? c ?? d)
      by (by intros [?|] [?|] [?|] [?|]).
    rewrite Hchain. exact Htoken. }
  unfold await. destruct_http; cbn [requests finished];
    (apply Forall_cons; split; [|by apply Forall_nil_2]);
    (split; [reflexivity|]); (split; [reflexivity|]);
    exists token, app_id; cbn [Request.headers Request.params];
    (split; [map_lookup|]); (split; [done|]); (split; [done|]);
    (split; [map_lookup|]); (split; [done|]); (split; [exact Happ|]);
    map_lookup.
Qed.

(** ** The query handler *)

Lemma setIfTruthy_lookup (key : string) (v : JsValue) (q : JsObject) (k : string) :
  setIfTruthy key v q !! k
  = if decide (k = key) then (if jsTruthy v then Some v else q !! k) else q !! k.
Proof.
  unfold setIfTruthy. destruct (jsTruthy v); case_decide as Hk; subst; try done.
  - apply lookup_insert_eq.
  - by rewrite lookup_insert_ne.
Qed.

(** X15: [branch_query] sends each of [limit], [after] and [query_id] in
    the query string exactly when its value is truthy (so [limit: 0] and
    [after: 0] are not sent) and never in the body; the body carries the
    resolved, non-empty key and secret and every other parameter
    unchanged. *)
Theorem query_request (config : BranchMcpConfig.t)
    (http : Request.t → HttpResult) (params : JsObject) :
  Forall (λ request,
            ∃ body key secret,
              Request.body request = ObjectBody body ∧
              (∀ k, k = "limit" ∨ k = "after" ∨ k = "query_id" →
                    Request.params request !! k
                      = (if jsTruthy (member params k)
                         then Some (member params k) else None) ∧
                    body !! k = None) ∧
              ResolvedAuth.branch_key (getResolvedAuth (authParamsOf params) config)
                = Some key ∧
              ResolvedAuth.branch_secret (getResolvedAuth (authParamsOf params) config)
                = Some secret ∧
              body !! "branch_key" = Some (JString key) ∧ key ≠ "" ∧
              body !! "branch_secret" = Some (JString secret) ∧ secret ≠ "" ∧
              (∀ k, k ≠ "limit" → k ≠ "after" → k ≠ "query_id" →
                    k ≠ "branch_key" → k ≠ "branch_secret" →
                    body !! k = params !! k))
    (requests (branch_query config http params)).
Proof.
  unfold branch_query. cbv zeta.
  destruct (truthy (ResolvedAuth.branch_key _)) as [key|] eqn:Hkey;
    [|by apply Forall_nil_2].
  destruct (truthy (ResolvedAuth.branch_secret _)) as [secret|] eqn:Hsecret;
    [|by apply Forall_nil_2].
  apply truthy_Some_inv in Hkey as [Hkey Hkne].
  apply truthy_Some_inv in Hsecret as [Hsecret Hsne].
  unfold await. destruct_http; cbn [requests finished];
    (apply Forall_cons; split; [|by apply Forall_nil_2]);
    eexists _, key, secret; cbn [Request.body Request.params];
    (split; [reflexivity|]);
    (split; [|split; [exact Hkey|split; [exact Hsecret|
       split; [map_lookup|split; [done|split; [map_lookup|split; [done|]]]]]]]).
  all: try (intros k [-> | [-> | ->]];
            rewrite !setIfTruthy_lookup, lookup_empty;
            repeat (case_decide; try discriminate);
            (split; [by destruct (jsTruthy _)|]);
            rewrite !lookup_insert_ne by discriminate;
            rewrite ?lookup_delete_eq, ?(lookup_delete_ne _ "query_id") by discriminate;
            rewrite ?lookup_delete_eq, ?(lookup_delete_ne _ "after") by discriminate;
            by rewrite ?lookup_delete_eq).
  all: intros k H1 H2 H3 H4 H5;
    by rewrite !lookup_insert_ne, !lookup_delete_ne by done.
Qed.

(** ** The custom export handler *)

(** X16: [branch_create_custom_export] takes its access token from the
    tool parameters only: the configuration matters through the base URL
    alone, and without a non-empty [api_key] parameter no request is
    made, whatever the configuration holds. A request carries that token
    in [Access-Token] and never in the body, sends [app_id] and
    [organization_id] in the query string exactly when they are non-empty
    strings, both when both are given, and at least one of them. *)
Theorem custom_export_request (config : BranchMcpConfig.t)
    (http : Request.t → HttpResult) (stringify : nat → JsValue → string)
    (params : JsObject) :
  (∀ config',
     getBranchBaseUrl config' = getBranchBaseUrl config →
     branch_create_custom_export config' http stringify params
     = branch_create_custom_export config http stringify params) ∧
  (blank (stringField params "api_key") →
   requests (branch_create_custom_export config http stringify params) = []) ∧
  Forall (λ request,
            ∃ body,
              Request.body request = ObjectBody body ∧
              body !! "api_key" = None ∧
              Request.headers request !! "Access-Token"
                = stringField params "api_key" ∧
              (∀ k, k = "app_id" ∨ k = "organization_id" →
                    Request.params request !! k
                      = JString <$> truthy (stringField params k)) ∧
              (is_Some (Request.params request !! "app_id") ∨
               is_Some (Request.params request !! "organization_id")))
    (requests (branch_create_custom_export config http stringify params)).
Proof.
  split; [|split].
  - intros config' Hurl. unfold branch_create_custom_export. cbv zeta.
    by rewrite Hurl.
  - intros Hblank. unfold branch_create_custom_export. cbv zeta.
    by rewrite (truthy_blank _ Hblank).
  - unfold branch_create_custom_export. cbv zeta.
    destruct (truthy (stringField params "api_key")) as [api_key|] eqn:Hkey;
      [|by apply Forall_nil_2].
    apply truthy_Some_inv in Hkey as [Hkey Hkne].
    assert (Happ : stringField (delete "api_key" params) "app_id"
                   = stringField params "app_id")
      by (unfold stringField; by rewrite lookup_delete_ne).
    assert (Horg : stringField (delete "api_key" params) "organization_id"
                   = stringField params "organization_id")
      by (unfold stringField; by rewrite lookup_delete_ne).
    rewrite Happ, Horg. unfold appIdOrOrgIdValidator_parse, appIdOrOrgIdCheck.
    cbn [ScopeParams.app_id ScopeParams.organization_id].
    destruct (truthy (stringField params "app_id")) as [a|] eqn:Ha;
      destruct (truthy (stringField params "organization_id")) as [o|] eqn:Ho;
      (destruct (bool_decide _ || bool_decide _) eqn:Hcheck;
       [|first [by apply Forall_nil_2
               | exfalso; apply orb_false_iff in Hcheck as [H1 H2];
                 apply bool_decide_eq_false in H1, H2; eauto]]);
      cbn [ScopeParams.app_id ScopeParams.organization_id]; rewrite ?Ha, ?Ho;
      try (exfalso; apply orb_true_iff in Hcheck as [H1 | H1];
           apply bool_decide_eq_true in H1; by destruct H1);
      unfold await; destruct_http; cbn [requests finished];
      (apply Forall_cons; split; [|by apply Forall_nil_2]);
      eexists; cbn [Request.body Request.params Request.headers];
      (split; [reflexivity|]);
      (split; [unfold customExportBody; cbv zeta;
               apply lookup_union_None_2;
               [by rewrite !lookup_delete_ne, lookup_delete_eq by discriminate
               |map_lookup]|]);
      (split; [rewrite Hkey; map_lookup|]);
      (split; [intros k [-> | ->]; rewrite lookup_fmap, ?Ha, ?Ho; f_equal; map_lookup|]);
      rewrite !lookup_fmap;
      first [left; eexists; f_equal; map_lookup
            | right; eexists; f_equal; map_lookup].
Qed.

Lemma custom_export_request_witness :
  requests
    (branch_create_custom_export
       (BranchMcpConfig.mk None None None (Some "configured") None None (Some "tok"))
       (λ _, HttpOk JNull) (λ _ _, "")
       {[ "app_id" := JString "1"; "start_date" := JString "2024-01-01" ]}) = [].
Proof.
  destruct (custom_export_request
              (BranchMcpConfig.mk None None None (Some "configured") None None
                 (Some "tok"))
              (λ _, HttpOk JNull) (λ _ _, "")
              {[ "app_id" := JString "1"; "start_date" := JString "2024-01-01" ]})
    as (_ & H & _).
  apply H. left. vm_compute. reflexivity.
Defined.

(** X17: the catch block of the export and app tools classifies a
    failure as [handleApiError] does: the same status and the same
    response snapshot always, and the same status-line message when the
    server responded; without a response the message starts with the
    label of the tool instead of ["Branch API error"]. *)
Theorem exportCatch_agrees (label : string) (error : Thrown) :
  BranchApiError.status (exportCatch label error)
    = BranchApiError.status (handleApiError error) ∧
  BranchApiError.response (exportCatch label error)
    = BranchApiError.response (handleApiError error) ∧
  (is_Some (responseOf error) →
   BranchApiError.message (exportCatch label error)
     = BranchApiError.message (handleApiError error)) ∧
  (responseOf error = None →
   BranchApiError.message (exportCatch label error)
     = label +:+ ": " +:+ getErrorMessage error ∧
   BranchApiError.message (handleApiError error)
     = "Branch API error: " +:+ getErrorMessage error).
Proof.
  destruct error as [v|m|m [r|]]; repeat split; try done;
    by intros [? ?].
Qed.

Lemma exportCatch_agrees_witness :
  BranchApiError.message
    (exportCatch "Error getting daily exports"
       (ThrownAxiosError "Request failed"
          (Some (AxiosResponse.mk JNull 403 "Forbidden"))))
  = "Branch API error: 403 Forbidden" ∧
  BranchApiError.message
    (exportCatch "Error getting daily exports" (ThrownError "timeout"))
  = "Error getting daily exports: timeout".
Proof.
  split.
  - destruct (exportCatch_agrees "Error getting daily exports"
                (ThrownAxiosError "Request failed"
                   (Some (AxiosResponse.mk JNull 403 "Forbidden"))))
      as (_ & _ & H & _).
    rewrite H; [reflexivity | by eexists].
  - destruct (exportCatch_agrees "Error getting daily exports"
                (ThrownError "timeout")) as (_ & _ & _ & H).
    destruct H as [H _]; [reflexivity|]. rewrite H. reflexivity.
Defined.

(** ** Results *)

(** X18: each of the ten handlers modelled here returns a result only
    when every request it made was answered, so never after a failed
    request. The only results returned without any request are the
    refusals of [branch_update_quick_link] and
    [branch_bulk_create_quick_links], which are marked [isError: true]. *)
Theorem returns_after_success (tool : Tool) (config : BranchMcpConfig.t)
    (http : Request.t → HttpResult) (stringify : nat → JsValue → string)
    (params : JsObject) (value : JsValue) :
  outcome (runTool tool config http stringify params) = Returns value →
  Forall (λ request, ∃ data, http request = HttpOk data)
    (requests (runTool tool config http stringify params)) ∧
  (requests (runTool tool config http stringify params) = [] →
   (tool = T_update_quick_link ∨ tool = T_bulk_create_quick_links) ∧
   optMember value "isError" = JBool true).
Proof.
  generalize (eq_refl (runTool tool config http stringify params)).
  generalize (runTool tool config http stringify params) at 1 3 4 5.
  intros run Hrun. revert run Hrun.
  destruct tool; unfold_handlers; cbv zeta; handler_cases;
    intros run ->; cbn [requests outcome finished];
    intros Hret; try discriminate Hret;
    (split;
     [repeat (apply Forall_cons; split; [by eexists|]); apply Forall_nil_2
     |intros Hnil; try discriminate Hnil]).
  all: injection Hret as <-; split; [by eauto | reflexivity].
Qed.

Lemma returns_after_success_witness :
  Forall (λ request, ∃ data, (λ _, HttpOk (JObject [("results", JArray [])])) request
                             = HttpOk data)
    (requests
       (runTool T_query
          (BranchMcpConfig.mk (Some "key_live_1") None (Some "secret") None None None None)
          (λ _, HttpOk (JObject [("results", JArray [])])) (λ _ _, "")
          {[ "limit" := JNumber 0 ]})).
Proof.
  assert (Hret : outcome
                   (runTool T_query
                      (BranchMcpConfig.mk (Some "key_live_1") None (Some "secret")
                         None None None None)
                      (λ _, HttpOk (JObject [("results", JArray [])])) (λ _ _, "")
                      {[ "limit" := JNumber 0 ]})
                 = Returns (JObject [("results", JArray [])]))
    by (vm_compute; reflexivity).
  exact (proj1 (returns_after_success _ _ _ _ _ _ Hret)).
Defined.

(** X19: with a non-empty resolved key and secret, [branch_query] makes
    exactly one request, a POST to [/v1/query/analytics]; it returns the
    data of the response as it is, and passes a failure of the request
    through [handleApiError]. *)
Theorem query_runs (config : BranchMcpConfig.t)
    (http : Request.t → HttpResult) (params : JsObject) (key secret : string) :
  ResolvedAuth.branch_key (getResolvedAuth (authParamsOf params) config) = Some key →
  ResolvedAuth.branch_secret (getResolvedAuth (authParamsOf params) config)
    = Some secret →
  key ≠ "" → secret ≠ "" →
  ∃ request,
    requests (branch_query config http params) = [request] ∧
    Request.method request = POST ∧
    Request.url request = getBranchBaseUrl config +:+ "/v1/query/analytics" ∧
    (∀ data, http request = HttpOk data →
             outcome (branch_query config http params) = Returns data) ∧
    (∀ error, http request = HttpThrows error →
              outcome (branch_query config http params)
              = ThrowsApiError (handleApiError error)).
Proof.
  intros Hkey Hsecret Hkne Hsne.
  unfold branch_query. cbv zeta.
  rewrite Hkey, Hsecret, (truthy_Some _ Hkne), (truthy_Some _ Hsne).
  unfold await. eexists. split; [by destruct_http|].
  split; [reflexivity|]. split; [reflexivity|].
  split; [intros data Hd | intros error He];
    match goal with
    | H : ?http ?r = _ |- context [?http ?r] => by rewrite H
    end.
Qed.

Lemma query_runs_witness :
  outcome
    (branch_query
       (BranchMcpConfig.mk (Some "key_live_1") None (Some "secret") None None None None)
       (λ _, HttpOk (JObject [("results", JArray [])]))
       {[ "limit" := JNumber 0 ]})
  = Returns (JObject [("results", JArray [])]).
Proof.
  assert (Hkey : ResolvedAuth.branch_key
                   (getResolvedAuth (authParamsOf {[ "limit" := JNumber 0 ]})
                      (BranchMcpConfig.mk (Some "key_live_1") None (Some "secret")
                         None None None None))
                 = Some "key_live_1") by (vm_compute; reflexivity).
  assert (Hsecret : ResolvedAuth.branch_secret
                      (getResolvedAuth (authParamsOf {[ "limit" := JNumber 0 ]})
                         (BranchMcpConfig.mk (Some "key_live_1") None (Some "secret")
                            None None None None))
                    = Some "secret") by (vm_compute; reflexivity).
  assert (Hkne : "key_live_1" ≠ "") by discriminate.
  assert (Hsne : "secret" ≠ "") by discriminate.
  destruct (query_runs _ (λ _, HttpOk (JObject [("results", JArray [])])) _ _ _
              Hkey Hsecret Hkne Hsne)
    as (request & _ & _ & _ & H & _).
  by apply H.
Defined.
